(** * Election data analyzer: aggregation, ranking, reporting and session state

    A shallow embedding of [election_data_analyzer.py] (the command-line
    analyzer, class [ElectionDataAnalyzer]) and of [terminalBase.py] (the
    desktop shell, class [ElectionAnalyzerApp]), together with the part of
    the data-frame library the two classes rely on:
    [groupby(...)[...].sum()], [sort_values(ascending=False)] and [head]. *)

From Stdlib Require Import ZArith Lia.
From stdpp Require Import gmap strings list pretty sorting.

Local Open Scope Z_scope.

(** ** Strings *)

Definition nl : string := String (Ascii.ascii_of_nat 10) EmptyString.

(** [s.endswith(suffix)] *)
Definition endswith (s suffix : string) : bool :=
  let n := String.length s in
  let k := String.length suffix in
  (k <=? n)%nat && String.eqb (String.substring (n - k) k s) suffix.

(** [c.upper()] on one ASCII character *)
Definition upper_ascii (c : Ascii.ascii) : Ascii.ascii :=
  let n := Ascii.nat_of_ascii c in
  if ((97 <=? n) && (n <=? 122))%nat then Ascii.ascii_of_nat (n - 32) else c.

(** [s.upper()] *)
Fixpoint upper (s : string) : string :=
  match s with
  | EmptyString => EmptyString
  | String c s' => String (upper_ascii c) (upper s')
  end.

(** [sep.join(parts)] *)
Definition join (sep : string) (parts : list string) : string :=
  String.concat sep parts.

(** [repr] of a list of plain strings, as in [f"{missing}"]. *)
Definition repr_str (s : string) : string := "'" +:+ s +:+ "'".
Definition repr_list (l : list string) : string :=
  "[" +:+ join ", " (map repr_str l) +:+ "]".

(** ** Exceptions and outcomes *)

Inductive Exception :=
| ValueError (msg : string)
| KeyError (key : string)
| FileNotFoundError (msg : string)
| AttributeError (msg : string)
| OtherError (msg : string).

(** [str(e)] *)
Definition str_exc (e : Exception) : string :=
  match e with
  | ValueError msg => msg
  | KeyError key => repr_str key
  | FileNotFoundError msg => msg
  | AttributeError msg => msg
  | OtherError msg => msg
  end.

(** What a call does: it returns, it raises, or the frame it was given lies
    outside the column types this development describes (see
    [groupby_sum]). *)
Inductive Outcome (A : Type) :=
| Returns (a : A)
| Raises (e : Exception)
| Unmodelled.
Arguments Returns {A} a.
Arguments Raises {A} e.
Arguments Unmodelled {A}.

Definition bind {A B} (m : Outcome A) (k : A -> Outcome B) : Outcome B :=
  match m with
  | Returns a => k a
  | Raises e => Raises e
  | Unmodelled => Unmodelled
  end.

Notation "'let*' x ':=' m 'in' k" := (bind m (fun x => k))
  (at level 10, x name, m at level 100, k at level 200).

(** ** Data frames *)

Inductive Cell :=
| CInt (z : Z)            (* a whole number *)
| CFloat (m e : Z)        (* a number with a fractional part, m * 2^e *)
| CStr (s : string)       (* text *)
| CNaN.                   (* a missing value *)

Record DataFrame := {
  columns : list string;
  rows : list (list Cell)
}.

(** [len(df)] *)
Definition len (df : DataFrame) : nat := length (rows df).

(** Position of the first column called [name]. *)
Fixpoint column_index (name : string) (cols : list string) : option nat :=
  match cols with
  | [] => None
  | c :: cols' =>
      if String.eqb c name then Some 0%nat
      else S <$> column_index name cols'
  end.

(** The cell of [row] in column [i]; a short row is padded with missing
    values, as the readers do. *)
Definition cell_at (i : nat) (row : list Cell) : Cell :=
  default CNaN (row !! i).

(** ** 64-bit integer columns

    A column in which every cell is a whole number that fits in 64 bits is
    stored with dtype int64, and its sums are taken in two's complement. *)

Definition int64_min : Z := - 2 ^ 63.
Definition int64_max : Z := 2 ^ 63 - 1.

Definition in_int64 (z : Z) : bool := (int64_min <=? z) && (z <=? int64_max).

Definition wrap64 (z : Z) : Z := (z + 2 ^ 63) mod 2 ^ 64 - 2 ^ 63.

Definition add64 (a b : Z) : Z := wrap64 (a + b).

(** [values.sum()] on an int64 column *)
Definition sum64 (l : list Z) : Z := fold_left add64 l 0.

(** The mathematical sum, used to state what [sum64] computes. *)
Definition zsum (l : list Z) : Z := fold_right Z.add 0 l.

(** ** Group labels

    A group label is the tuple of the key columns' values: one component
    for [groupby('region')], two for [groupby(['candidate', 'party'])].
    Labels are compared like tuples of strings. *)

Abbreviation Label := (list string).

Fixpoint label_compare (a b : Label) : comparison :=
  match a, b with
  | [], [] => Eq
  | [], _ :: _ => Lt
  | _ :: _, [] => Gt
  | x :: a', y :: b' =>
      match String.compare x y with
      | Eq => label_compare a' b'
      | c => c
      end
  end.

Definition label_leb (a b : Label) : bool :=
  match label_compare a b with Gt => false | _ => true end.

Definition label_lt (a b : Label) : Prop := label_compare a b = Lt.

(** A series: labelled 64-bit totals, in index order. *)
Abbreviation Series := (list (Label * Z)).

(** ** Sorting

    Insertion sort; an element is placed before the first element that is
    not smaller, so equal elements keep their order. *)

Section InsertionSort.
Context {A : Type} (leb : A -> A -> bool).

Fixpoint insert (x : A) (l : list A) : list A :=
  match l with
  | [] => [x]
  | y :: l' => if leb x y then x :: y :: l' else y :: insert x l'
  end.

Definition insertion_sort (l : list A) : list A :=
  fold_right insert [] l.

(** The order a boolean comparison decides. *)
Definition le_of : relation A := fun a b => leb a b = true.
End InsertionSort.

(** ** groupby(by)[value].sum()

    With the library defaults ([sort=True], [dropna=True]): rows whose key
    has a missing component are left out, there is one group per distinct
    key that occurs, groups come out in ascending key order, and a group's
    total is the int64 sum of its rows.

    The model covers frames in which the key columns hold text or missing
    values and the value column is int64. For other column types the
    library's reductions depend on the dtype (floating point, object) and are
    not described here: the outcome is [Unmodelled]. *)

(** A key cell: text, missing (inner [None]), or something else (outer
    [None]). *)
Definition key_cell (c : Cell) : option (option string) :=
  match c with
  | CStr s => Some (Some s)
  | CNaN => Some None
  | _ => None
  end.

Definition value_cell (c : Cell) : option Z :=
  match c with
  | CInt z => if in_int64 z then Some z else None
  | _ => None
  end.

(** The key of a row: [Some (Some label)], [Some None] for a row that is
    dropped, [None] outside the model. *)
Fixpoint row_key (idx : list nat) (row : list Cell) : option (option Label) :=
  match idx with
  | [] => Some (Some [])
  | i :: idx' =>
      match key_cell (cell_at i row), row_key idx' row with
      | Some (Some s), Some (Some l) => Some (Some (s :: l))
      | Some _, Some _ => Some None
      | _, _ => None
      end
  end.

Definition row_entry (idx : list nat) (vi : nat) (row : list Cell)
  : option (option Label * Z) :=
  match row_key idx row, value_cell (cell_at vi row) with
  | Some k, Some v => Some (k, v)
  | _, _ => None
  end.

(** All rows as (key, value) entries, or [None] outside the model. *)
Fixpoint entries (idx : list nat) (vi : nat) (rs : list (list Cell))
  : option (list (option Label * Z)) :=
  match rs with
  | [] => Some []
  | r :: rs' =>
      match row_entry idx vi r, entries idx vi rs' with
      | Some e, Some es => Some (e :: es)
      | _, _ => None
      end
  end.

(** Entries that take part in the grouping. *)
Definition observed (es : list (option Label * Z)) : list (Label * Z) :=
  omap (fun e => match fst e with Some k => Some (k, snd e) | None => None end) es.

(** Distinct labels in ascending order. *)
Definition group_keys (ks : list Label) : list Label :=
  insertion_sort label_leb (remove_dups ks).

Definition group_values (k : Label) (obs : list (Label * Z)) : list Z :=
  map snd (filter (fun e => fst e = k) obs).

Definition group_total (k : Label) (obs : list (Label * Z)) : Z :=
  sum64 (group_values k obs).

Definition aggregate (obs : list (Label * Z)) : Series :=
  map (fun k => (k, group_total k obs)) (group_keys (map fst obs)).

Fixpoint resolve (names : list string) (cols : list string) : Outcome (list nat) :=
  match names with
  | [] => Returns []
  | n :: names' =>
      match column_index n cols with
      | None => Raises (KeyError n)
      | Some i => let* l := resolve names' cols in Returns (i :: l)
      end
  end.

Definition groupby_sum (df : DataFrame) (by_ : list string) (value : string)
  : Outcome Series :=
  let* idx := resolve by_ (columns df) in
  match column_index value (columns df) with
  | None => Raises (KeyError ("Column not found: " +:+ value))
  | Some vi =>
      match entries idx vi (rows df) with
      | None => Unmodelled
      | Some es => Returns (aggregate (observed es))
      end
  end.

(** ** sort_values(ascending=False)

    The library sorts descending by reversing the values, sorting them
    ascending, and reversing the outcome. The ascending sort is taken to
    leave equal values in the order it finds them, as the insertion sort
    does that the default sort kind runs on short arrays; this decides the
    order of entries with equal totals and nothing else. *)

Definition value_leb (a b : Label * Z) : bool := snd a <=? snd b.

Definition value_le : relation (Label * Z) := le_of value_leb.

Definition sort_values (s : Series) : Series :=
  reverse (insertion_sort value_leb (reverse s)).

(** [s.head(n)] *)
Definition head (n : nat) (s : Series) : Series := take n s.

(** ** The world outside

    Library and operating-system calls whose results the program only
    passes along: rendering a series as text, and reading files. *)

Inductive ReadResult :=
| ReadOk (df : DataFrame)
| ReadFails (e : Exception).

Record Env := {
  to_string : Series -> string;        (* [Series.to_string()] *)
  path_exists : string -> bool;        (* [os.path.exists] *)
  read_csv : string -> ReadResult;     (* [pd.read_csv] *)
  read_json : string -> ReadResult;    (* [pd.DataFrame(json.load(f))] *)
  basename : string -> string          (* [os.path.basename] *)
}.

(** What a method does to its surroundings, in order. *)
Inductive Effect :=
| Print (text : string)
| WriteFile (path content : string)
| SaveFigure (path : string)
| ShowError (title message : string)
| ShowWarning (title message : string)
| ShowInfo (title message : string)
| SetStatus (text : string)
| SetFileLabel (text : string)
| UpdateResults (text : string).

(** A method call: its outcome, the object's state afterwards (also when it
    raised), and its effects. *)
Record Step (S A : Type) := MkStep {
  result : Outcome A;
  state : S;
  effects : list Effect
}.
Arguments MkStep {S A} result state effects.
Arguments result {S A} s.
Arguments state {S A} s.
Arguments effects {S A} s.

Definition required_columns : list string :=
  ["region"; "candidate"; "party"; "votes"].

(** [all(col in df.columns for col in required_columns)] *)
Definition has_required_columns (df : DataFrame) : bool :=
  forallb (fun col => bool_decide (col ∈ columns df)) required_columns.

(** [[col for col in required_columns if col not in df.columns]] *)
Definition missing_columns (df : DataFrame) : list string :=
  filter (fun col => col ∉ columns df) required_columns.

Definition missing_columns_error (df : DataFrame) : Exception :=
  ValueError ("Missing required columns: " +:+ repr_list (missing_columns df)).

Fixpoint repeat_string (s : string) (n : nat) : string :=
  match n with
  | O => EmptyString
  | S n' => s +:+ repeat_string s n'
  end.

(** The three [f.write] calls that open a report; [now] is
    [datetime.now().strftime('%Y-%m-%d %H:%M:%S')]. *)
Definition opening_writes (now : string) : list string :=
  ["ELECTION ANALYSIS REPORT" +:+ nl;
   repeat_string "=" 40 +:+ nl +:+ nl;
   "Generated on: " +:+ now +:+ nl +:+ nl].

(** The writes guarded by [if kind in self.analysis_results]: a heading,
    the stored series as text ([shown] is the identity or [head(10)]), and
    a blank line. *)
Definition block_writes (env : Env) (results : gmap string Series)
    (kind heading : string) (shown : Series -> Series) : list string :=
  match results !! kind with
  | Some s => [heading +:+ nl; to_string env (shown s); nl +:+ nl]
  | None => []
  end.

(** What ends up in the file after a sequence of writes. *)
Definition written (writes : list string) : string :=
  join EmptyString writes.

(** ** The analysis kinds *)

Inductive Kind := TurnoutByRegion | PartyPerformance | CandidatePerformance.

(** The name a kind's result is stored under. *)
Definition kind_name (k : Kind) : string :=
  match k with
  | TurnoutByRegion => "turnout_by_region"
  | PartyPerformance => "party_performance"
  | CandidatePerformance => "candidate_performance"
  end.

(** The columns a kind groups by. *)
Definition kind_by (k : Kind) : list string :=
  match k with
  | TurnoutByRegion => ["region"]
  | PartyPerformance => ["party"]
  | CandidatePerformance => ["candidate"; "party"]
  end.

(** ** election_data_analyzer.py: class ElectionDataAnalyzer *)

Module Analyzer.

Record State := MkState {
  data : option DataFrame;
  analysis_results : gmap string Series;
  visualizations : gmap string string
}.

(** [__init__] *)
Definition init : State :=
  {| data := None; analysis_results := ∅; visualizations := ∅ |}.

Definition no_data_loaded : Exception :=
  ValueError "No data loaded. Please load data first.".

Definition no_analysis_results : Exception :=
  ValueError "No analysis results available. Please run analysis first.".

Definition load_data (env : Env) (file_path : string) (s : State)
  : Step State bool :=
  let failed e :=
    MkStep (Returns false) s [Print ("Error loading data: " +:+ str_exc e)] in
  let loaded r :=
    match r with
    | ReadOk df =>
        MkStep (Returns true)
          {| data := Some df;
             analysis_results := analysis_results s;
             visualizations := visualizations s |}
          [Print "Data loaded successfully!"]
    | ReadFails e => failed e
    end in
  if negb (path_exists env file_path) then
    failed (FileNotFoundError ("File not found: " +:+ file_path))
  else if endswith file_path ".csv" then loaded (read_csv env file_path)
  else if endswith file_path ".json" then loaded (read_json env file_path)
  else failed (ValueError "Unsupported file format. Please use CSV or JSON.").

Definition validate_data (s : State) : Outcome bool :=
  match data s with
  | None => Raises (AttributeError "'NoneType' object has no attribute 'columns'")
  | Some df =>
      if has_required_columns df then Returns true
      else Raises (missing_columns_error df)
  end.

(** The body shared by the three analysis methods, which differ in the key
    columns and in the name the result is stored under. *)
Definition analyze (by_ : list string) (kind : string) (s : State)
  : Step State Series :=
  match data s with
  | None => MkStep (Raises no_data_loaded) s []
  | Some df =>
      match validate_data s with
      | Raises e => MkStep (Raises e) s []
      | Unmodelled => MkStep Unmodelled s []
      | Returns _ =>
          match groupby_sum df by_ "votes" with
          | Raises e => MkStep (Raises e) s []
          | Unmodelled => MkStep Unmodelled s []
          | Returns grouped =>
              let ranked := sort_values grouped in
              MkStep (Returns ranked)
                {| data := data s;
                   analysis_results := <[kind := ranked]> (analysis_results s);
                   visualizations := visualizations s |}
                []
          end
      end
  end.

Definition analyze_turnout : State -> Step State Series :=
  analyze ["region"] "turnout_by_region".

Definition analyze_party_performance : State -> Step State Series :=
  analyze ["party"] "party_performance".

Definition analyze_candidate_performance : State -> Step State Series :=
  analyze ["candidate"; "party"] "candidate_performance".

(** The method that computes a given kind. *)
Definition run (k : Kind) : State -> Step State Series :=
  match k with
  | TurnoutByRegion => analyze_turnout
  | PartyPerformance => analyze_party_performance
  | CandidatePerformance => analyze_candidate_performance
  end.

(** [stamp] is [datetime.now().strftime("%Y%m%d_%H%M%S")]; drawing the
    charts is left to the plotting library. *)
Definition generate_visualizations (stamp : string) (s : State)
  : Step State string :=
  if bool_decide (analysis_results s = ∅) then
    MkStep (Raises no_analysis_results) s []
  else
    let output_file := "election_analysis_" +:+ stamp +:+ ".png" in
    MkStep (Returns output_file)
      {| data := data s;
         analysis_results := analysis_results s;
         visualizations := <["latest" := output_file]> (visualizations s) |}
      [SaveFigure output_file;
       Print ("Visualizations saved to " +:+ output_file)].

(** The [f.write] calls of [generate_report], in order. *)
Definition report_writes (env : Env) (now : string) (s : State)
  : list string :=
  opening_writes now
  ++ block_writes env (analysis_results s)
       "turnout_by_region" "VOTER TURNOUT BY REGION:" id
  ++ block_writes env (analysis_results s)
       "party_performance" "PARTY PERFORMANCE:" id
  ++ block_writes env (analysis_results s)
       "candidate_performance" "CANDIDATE PERFORMANCE:" (head 10)
  ++ match visualizations s !! "latest" with
     | Some file => ["Visualization saved to: " +:+ file +:+ nl]
     | None => []
     end.

Definition generate_report (env : Env) (now output_file : string) (s : State)
  : Step State string :=
  if bool_decide (analysis_results s = ∅) then
    MkStep (Raises no_analysis_results) s []
  else
    MkStep (Returns output_file) s
      [WriteFile output_file (written (report_writes env now s));
       Print ("Report generated: " +:+ output_file)].

End Analyzer.

(** ** terminalBase.py: class ElectionAnalyzerApp

    The object's widgets are driven through [Effect]s; its state proper is
    the loaded frame and the stored results. *)

Module App.

Record State := MkState {
  data : option DataFrame;
  analysis_results : gmap string Series
}.

(** [__init__] *)
Definition init : State := {| data := None; analysis_results := ∅ |}.

(** [file_path] is what the open-file dialog returned, empty when the
    dialog was dismissed. *)
Definition load_data (env : Env) (file_type file_path : string) (s : State)
  : Step State unit :=
  if String.eqb file_path EmptyString then MkStep (Returns tt) s []
  else
    let failed s' e :=
      MkStep (Returns tt) s'
        [ShowError "Error" ("Failed to load file:" +:+ nl +:+ str_exc e);
         SetStatus "Error loading file"] in
    let validated s' :=
      match data s' with
      | None =>
          failed s' (AttributeError "'NoneType' object has no attribute 'columns'")
      | Some df =>
          if has_required_columns df then
            MkStep (Returns tt) s'
              [SetFileLabel ("Loaded: " +:+ basename env file_path);
               SetStatus ("Successfully loaded " +:+ upper file_type +:+ " file");
               UpdateResults
                 ("Data loaded successfully!" +:+ nl +:+ nl
                  +:+ "Records loaded: " +:+ pretty (len df) +:+ nl
                  +:+ "Columns: " +:+ join ", " (columns df))]
          else failed s' (missing_columns_error df)
      end in
    let assigned r :=
      match r with
      | ReadOk df =>
          validated {| data := Some df; analysis_results := analysis_results s |}
      | ReadFails e => failed s e
      end in
    if String.eqb file_type "csv" then assigned (read_csv env file_path)
    else if String.eqb file_type "json" then assigned (read_json env file_path)
    else validated s.

Definition validate_data (s : State) : bool * list Effect :=
  match data s with
  | None => (false, [ShowWarning "No Data" "Please load election data first"])
  | Some _ => (true, [])
  end.

(** The body shared by the three analysis methods. [title] heads the text
    shown in the results pane, [shown] is what of the series is shown
    there, [done_] and [failed] are the status-bar texts. *)
Definition analyze (env : Env) (by_ : list string) (kind title : string)
    (shown : Series -> Series) (done_ failed : string) (s : State)
  : Step State unit :=
  let (ok, warning) := validate_data s in
  if negb ok then MkStep (Returns tt) s warning
  else
    let failure e :=
      MkStep (Returns tt) s
        [ShowError "Analysis Error" (str_exc e); SetStatus failed] in
    match data s with
    | None =>
        failure (AttributeError "'NoneType' object has no attribute 'groupby'")
    | Some df =>
        match groupby_sum df by_ "votes" with
        | Returns grouped =>
            let ranked := sort_values grouped in
            MkStep (Returns tt)
              {| data := data s;
                 analysis_results := <[kind := ranked]> (analysis_results s) |}
              [UpdateResults
                 (title +:+ nl +:+ nl +:+ to_string env (shown ranked));
               SetStatus done_]
        | Raises e => failure e
        | Unmodelled => MkStep Unmodelled s []
        end
    end.

Definition analyze_turnout (env : Env) : State -> Step State unit :=
  analyze env ["region"] "turnout_by_region" "VOTER TURNOUT BY REGION:" id
    "Voter turnout analysis completed" "Error in turnout analysis".

Definition analyze_party_performance (env : Env) : State -> Step State unit :=
  analyze env ["party"] "party_performance" "PARTY PERFORMANCE:" id
    "Party performance analysis completed"
    "Error in party performance analysis".

Definition analyze_candidate_performance (env : Env)
  : State -> Step State unit :=
  analyze env ["candidate"; "party"] "candidate_performance"
    "TOP 10 CANDIDATES BY PERFORMANCE:" (head 10)
    "Candidate performance analysis completed"
    "Error in candidate performance analysis".

(** The method that computes a given kind. *)
Definition run (env : Env) (k : Kind) : State -> Step State unit :=
  match k with
  | TurnoutByRegion => analyze_turnout env
  | PartyPerformance => analyze_party_performance env
  | CandidatePerformance => analyze_candidate_performance env
  end.

(** The [f.write] calls of [generate_report], in order. *)
Definition report_writes (env : Env) (now : string) (s : State)
  : list string :=
  opening_writes now
  ++ block_writes env (analysis_results s)
       "turnout_by_region" "VOTER TURNOUT BY REGION:" id
  ++ block_writes env (analysis_results s)
       "party_performance" "PARTY PERFORMANCE:" id
  ++ block_writes env (analysis_results s)
       "candidate_performance" "CANDIDATE PERFORMANCE (TOP 10):" (head 10).

(** [now] is [datetime.now().strftime('%Y-%m-%d %H:%M:%S')]; [file_path]
    is what the save-file dialog returned, empty when the dialog was
    dismissed. *)
Definition generate_report (env : Env) (now file_path : string) (s : State)
  : Step State unit :=
  if bool_decide (analysis_results s = ∅) then
    MkStep (Returns tt) s [ShowWarning "No Results" "Please run analyses first"]
  else if String.eqb file_path EmptyString then MkStep (Returns tt) s []
  else
    MkStep (Returns tt) s
      [WriteFile file_path (written (report_writes env now s));
       SetStatus ("Report saved to " +:+ file_path);
       ShowInfo "Report Generated"
         ("Report successfully saved to:" +:+ nl +:+ file_path)].

End App.

(** ** Election tables

    The tables the specification calls valid, after its Record invariant:
    the four required columns are there, region, candidate and party hold
    text in every row (none is missing), and votes is a non-negative whole
    number, here one that fits the int64 column. *)

Definition field (df : DataFrame) (name : string) (row : list Cell) : Cell :=
  match column_index name (columns df) with
  | Some i => cell_at i row
  | None => CNaN
  end.

Definition key_columns : list string := ["region"; "candidate"; "party"].

Definition is_text (c : Cell) : bool :=
  match c with CStr _ => true | _ => false end.

Definition is_count (c : Cell) : bool :=
  match c with CInt z => (0 <=? z) && (z <=? int64_max) | _ => false end.

Definition text_of (c : Cell) : string :=
  match c with CStr s => s | _ => EmptyString end.

Definition int_of (c : Cell) : Z :=
  match c with CInt z => z | _ => 0 end.

Definition valid_row (df : DataFrame) (row : list Cell) : bool :=
  is_text (field df "region" row) && is_text (field df "candidate" row)
  && is_text (field df "party" row) && is_count (field df "votes" row).

Definition valid_table (df : DataFrame) : bool :=
  has_required_columns df && forallb (valid_row df) (rows df).

(** The votes column of an election table, row by row. *)
Definition votes (df : DataFrame) : list Z :=
  map (fun row => int_of (field df "votes" row)) (rows df).

(** The label of a row under the key columns [by_]. *)
Definition row_label (df : DataFrame) (by_ : list string) (row : list Cell)
  : Label :=
  map (fun name => text_of (field df name row)) by_.

(** The rows of an election table as (label, votes) pairs. *)
Definition records (df : DataFrame) (by_ : list string) : list (Label * Z) :=
  map (fun row => (row_label df by_ row, int_of (field df "votes" row))) (rows df).

(** ** The report as the specification words it

    A title, a timestamp line, then one block per analysis kind that has a
    stored result, in the order turnout, party, candidate, the candidate
    block showing at most ten entries. [heading] gives each block its first
    line. *)

Definition report_order : list Kind :=
  [TurnoutByRegion; PartyPerformance; CandidatePerformance].

Definition top_n (k : Kind) (s : Series) : Series :=
  match k with
  | CandidatePerformance => take 10 s
  | _ => s
  end.

Definition render (env : Env) (heading : Kind -> string) (k : Kind)
    (s : Series) : string :=
  heading k +:+ nl +:+ to_string env (top_n k s) +:+ nl +:+ nl.

Definition available_blocks (env : Env) (heading : Kind -> string)
    (results : gmap string Series) : list string :=
  omap (fun k => render env heading k <$> results !! kind_name k) report_order.

Definition report_title : string :=
  "ELECTION ANALYSIS REPORT" +:+ nl +:+ repeat_string "=" 40 +:+ nl +:+ nl.

Definition timestamp_line (now : string) : string :=
  "Generated on: " +:+ now +:+ nl +:+ nl.

Definition compose_report (env : Env) (heading : Kind -> string)
    (results : gmap string Series) (now : string) : string :=
  report_title +:+ timestamp_line now
  +:+ written (available_blocks env heading results).

Definition analyzer_heading (k : Kind) : string :=
  match k with
  | TurnoutByRegion => "VOTER TURNOUT BY REGION:"
  | PartyPerformance => "PARTY PERFORMANCE:"
  | CandidatePerformance => "CANDIDATE PERFORMANCE:"
  end.

Definition app_heading (k : Kind) : string :=
  match k with
  | TurnoutByRegion => "VOTER TURNOUT BY REGION:"
  | PartyPerformance => "PARTY PERFORMANCE:"
  | CandidatePerformance => "CANDIDATE PERFORMANCE (TOP 10):"
  end.

(** The line the command-line analyzer adds at the end of a report once a
    chart file has been recorded. *)
Definition visualization_line (visualizations : gmap string string) : string :=
  match visualizations !! "latest" with
  | Some file => "Visualization saved to: " +:+ file +:+ nl
  | None => EmptyString
  end.

(** ** Sample data *)

Definition election_columns : list string :=
  ["region"; "candidate"; "party"; "votes"].

(** The scenario of the specification. *)
Definition scenario_table : DataFrame :=
  {| columns := election_columns;
     rows := [[CStr "RegionA"; CStr "Alice"; CStr "PartyX"; CInt 100];
              [CStr "RegionA"; CStr "Bob"; CStr "PartyY"; CInt 50];
              [CStr "RegionB"; CStr "Alice"; CStr "PartyX"; CInt 30]] |}.

(** Two regions with the same total, the alphabetically later one first. *)
Definition tied_table : DataFrame :=
  {| columns := election_columns;
     rows := [[CStr "South"; CStr "Ann"; CStr "Blue"; CInt 10];
              [CStr "North"; CStr "Bob"; CStr "Red"; CInt 10]] |}.

(** All four columns, but no votes cell is a non-negative whole number. *)
Definition bad_votes_table : DataFrame :=
  {| columns := election_columns;
     rows := [[CStr "RegionA"; CStr "Alice"; CStr "PartyX"; CInt (-5)];
              [CStr "RegionA"; CStr "Bob"; CStr "PartyY"; CFloat 3 (-1)];
              [CStr "RegionB"; CStr "Carol"; CStr "PartyX"; CStr "many"]] |}.

(** A plain rendering of a series, one line per entry. *)
Definition plain_to_string (s : Series) : string :=
  join nl (map (fun e => join " " (fst e) +:+ " " +:+ pretty (snd e)) s).

(** Two files on disk: [first.csv] holds the scenario, [second.csv] the
    tied table. *)
Definition sample_env : Env :=
  {| to_string := plain_to_string;
     path_exists := fun path =>
       String.eqb path "first.csv" || String.eqb path "second.csv";
     read_csv := fun path =>
       if String.eqb path "first.csv" then ReadOk scenario_table
       else ReadOk tied_table;
     read_json := fun _ => ReadFails (OtherError "not a JSON document");
     basename := fun path => path |}.

Definition analyzer_with (df : DataFrame) : Analyzer.State :=
  {| Analyzer.data := Some df;
     Analyzer.analysis_results := ∅;
     Analyzer.visualizations := ∅ |}.

Definition app_with (df : DataFrame) : App.State :=
  {| App.data := Some df; App.analysis_results := ∅ |}.

(** The ranked series an analysis kind yields on an election table. *)
Definition ranked_series (df : DataFrame) (k : Kind) : Series :=
  sort_values (aggregate (records df (kind_by k))).

(** ** Rows without a key

    [df.dropna(subset=by_)]: the frame without the rows in which one of the
    columns [by_] is missing. *)

Definition is_missing (c : Cell) : bool :=
  match c with CNaN => true | _ => false end.

Definition key_missing (df : DataFrame) (by_ : list string) (row : list Cell)
  : bool :=
  existsb (fun name => is_missing (field df name row)) by_.

Definition dropna (df : DataFrame) (by_ : list string) : DataFrame :=
  {| columns := columns df;
     rows := filter (fun row => key_missing df by_ row = false) (rows df) |}.

(** The scenario with one more row, whose region is missing. *)
Definition gappy_table : DataFrame :=
  {| columns := election_columns;
     rows := rows scenario_table
             ++ [[CNaN; CStr "Carol"; CStr "PartyY"; CInt 7]] |}.


(** The scenario without its party column. *)
Definition partyless_table : DataFrame :=
  {| columns := ["region"; "candidate"; "votes"];
     rows := [[CStr "RegionA"; CStr "Alice"; CInt 100];
              [CStr "RegionB"; CStr "Bob"; CInt 30]] |}.

(** ** Sequences of calls

    A session is what a fresh object has become after a sequence of method
    calls. *)

Inductive AnalyzerCall :=
| ALoad (env : Env) (file_path : string)
| AAnalyze (k : Kind)
| AVisualize (stamp : string)
| AReport (env : Env) (now output_file : string).

Definition analyzer_after (c : AnalyzerCall) (s : Analyzer.State)
  : Analyzer.State :=
  match c with
  | ALoad env file_path => state (Analyzer.load_data env file_path s)
  | AAnalyze k => state (Analyzer.run k s)
  | AVisualize stamp => state (Analyzer.generate_visualizations stamp s)
  | AReport env now output_file =>
      state (Analyzer.generate_report env now output_file s)
  end.

Definition analyzer_session (calls : list AnalyzerCall) : Analyzer.State :=
  foldl (fun s c => analyzer_after c s) Analyzer.init calls.

Inductive AppCall :=
| PLoad (env : Env) (file_type file_path : string)
| PAnalyze (env : Env) (k : Kind)
| PReport (env : Env) (now file_path : string).

Definition app_after (c : AppCall) (a : App.State) : App.State :=
  match c with
  | PLoad env file_type file_path =>
      state (App.load_data env file_type file_path a)
  | PAnalyze env k => state (App.run env k a)
  | PReport env now file_path => state (App.generate_report env now file_path a)
  end.

Definition app_session (calls : list AppCall) : App.State :=
  foldl (fun a c => app_after c a) App.init calls.

(** A series as an analysis of kind [k] stores it: totals in
    non-increasing order, no label twice, labels with one component per
    key column, totals that are 64-bit values. *)
Definition ranked (k : Kind) (series : Series) : Prop :=
  StronglySorted Z.ge (map snd series) /\
  NoDup (map fst series) /\
  Forall (fun e => length (fst e) = length (kind_by k) /\
                   int64_min <= snd e <= int64_max) series.

(** Every stored series sits under the name of a kind and is ranked. *)
Definition well_stored (results : gmap string Series) : Prop :=
  forall name series, results !! name = Some series ->
    exists k, name = kind_name k /\ ranked k series.

(** The only chart on record is the latest, under the name the analyzer
    gives its chart files. *)
Definition latest_only (visualizations : gmap string string) : Prop :=
  forall name file, visualizations !! name = Some file ->
    name = "latest" /\
    exists stamp, file = "election_analysis_" +:+ stamp +:+ ".png".

(** What holds of the analyzer in every session: stored series are ranked
    and sit under kind names; stored results imply a loaded table; the only
    chart on record is the latest; a chart on record implies stored
    results. *)
Definition analyzer_invariant (s : Analyzer.State) : Prop :=
  well_stored (Analyzer.analysis_results s) /\
  (Analyzer.analysis_results s <> ∅ -> is_Some (Analyzer.data s)) /\
  latest_only (Analyzer.visualizations s) /\
  (Analyzer.visualizations s <> ∅ -> Analyzer.analysis_results s <> ∅).

(** The same of the desktop shell. *)
Definition app_invariant (a : App.State) : Prop :=
  well_stored (App.analysis_results a) /\
  (App.analysis_results a <> ∅ -> is_Some (App.data a)).

(** ** election_data_analyzer.py: main

    The menu loop, run against the lines that standard input holds. *)

Inductive ConsoleEvent :=
| Did (e : Effect)           (* an effect of a method, or a [print] of [main] *)
| Asked (prompt : string).   (* [input(prompt)] writing its prompt *)

Record Console := {
  series_str : Series -> string;   (* [str(series)], what [print] shows *)
  stamp_at : nat -> string;        (* the clock in the n-th turn, as [%Y%m%d_%H%M%S] *)
  now_at : nat -> string           (* the same, as [%Y-%m-%d %H:%M:%S] *)
}.

Definition menu : list Effect :=
  [Print (nl +:+ "MENU:");
   Print "1. Load election data";
   Print "2. Analyze voter turnout";
   Print "3. Analyze party performance";
   Print "4. Analyze candidate performance";
   Print "5. Generate visualizations";
   Print "6. Generate report";
   Print "7. Exit"].

Definition choice_prompt : string := "Enter your choice (1-7): ".

Definition path_prompt : string :=
  "Enter path to election data file (CSV/JSON): ".

(** The [EOFError] that [input] raises when standard input is exhausted. *)
Definition eof_error : Exception := OtherError "EOF when reading a line".

(** [except Exception as e: print(f"Error: {str(e)}")] *)
Definition reported (e : Exception) : list ConsoleEvent :=
  [Did (Print ("Error: " +:+ str_exc e))].

Inductive Next := Continue | Exit | OutsideModel.

(** One pass through the body of the loop, after the choice was read. *)
Record Turn := MkTurn {
  next : Next;
  after : Analyzer.State;
  shown : list ConsoleEvent
}.

(** A method call inside the [try]: what it does, then what [main] prints
    when it returned, or the report of the exception it raised. *)
Definition attempt {A} (r : Step Analyzer.State A) (then_ : A -> list Effect)
  : Turn :=
  match result r with
  | Returns a => MkTurn Continue (state r) (map Did (effects r ++ then_ a))
  | Raises e => MkTurn Continue (state r) (map Did (effects r) ++ reported e)
  | Unmodelled => MkTurn OutsideModel (state r) []
  end.

(** Choice 1, with the next line of input as the path. *)
Definition load_turn (env : Env) (file_path : string) (s : Analyzer.State)
  : Turn :=
  let t := attempt (Analyzer.load_data env file_path s)
             (fun ok => if ok then [Print "Data loaded successfully!"] else []) in
  MkTurn (next t) (after t) (Asked path_prompt :: shown t).

(** Choice 1 when no line is left: [input] raises inside the [try]. *)
Definition load_turn_eof (s : Analyzer.State) : Turn :=
  MkTurn Continue s (Asked path_prompt :: reported eof_error).

(** The other choices; [n] counts the turns. *)
Definition choose (env : Env) (con : Console) (n : nat) (choice : string)
    (s : Analyzer.State) : Turn :=
  if String.eqb choice "2" then
    attempt (Analyzer.analyze_turnout s)
      (fun r => [Print (nl +:+ "Voter Turnout by Region:");
                 Print (series_str con r)])
  else if String.eqb choice "3" then
    attempt (Analyzer.analyze_party_performance s)
      (fun r => [Print (nl +:+ "Party Performance:"); Print (series_str con r)])
  else if String.eqb choice "4" then
    attempt (Analyzer.analyze_candidate_performance s)
      (fun r => [Print (nl +:+ "Candidate Performance (Top 10):");
                 Print (series_str con (head 10 r))])
  else if String.eqb choice "5" then
    attempt (Analyzer.generate_visualizations (stamp_at con n) s)
      (fun f => [Print ("Visualizations saved to " +:+ f)])
  else if String.eqb choice "6" then
    attempt (Analyzer.generate_report env (now_at con n) "election_report.txt" s)
      (fun f => [Print ("Report generated: " +:+ f)])
  else if String.eqb choice "7" then
    MkTurn Exit s [Did (Print "Exiting Election Data Analyzer. Goodbye!")]
  else
    MkTurn Continue s
      [Did (Print "Invalid choice. Please enter a number between 1 and 7.")].

(** How a run of [main] ends, the analyzer it leaves, what the console
    saw. *)
Record Run := MkRun {
  ended : Outcome unit;
  final : Analyzer.State;
  console : list ConsoleEvent
}.

(** The menu and the prompt for the choice. *)
Definition turn_opening : list ConsoleEvent :=
  map Did menu ++ [Asked choice_prompt].

Definition continue_with (t : Turn) (rest : Analyzer.State -> Run) : Run :=
  match next t with
  | Continue =>
      let r := rest (after t) in
      MkRun (ended r) (final r) (turn_opening ++ shown t ++ console r)
  | Exit => MkRun (Returns tt) (after t) (turn_opening ++ shown t)
  | OutsideModel => MkRun Unmodelled (after t) (turn_opening ++ shown t)
  end.

(** [while True]: when no line is left for the choice, [input] raises
    outside the [try] and the loop ends with that exception. *)
Fixpoint menu_loop (env : Env) (con : Console) (n : nat) (stdin : list string)
    (s : Analyzer.State) : Run :=
  match stdin with
  | [] => MkRun (Raises eof_error) s turn_opening
  | choice :: rest =>
      if String.eqb choice "1" then
        match rest with
        | [] =>
            continue_with (load_turn_eof s)
              (fun s' => MkRun (Raises eof_error) s' turn_opening)
        | file_path :: rest' =>
            continue_with (load_turn env file_path s)
              (menu_loop env con (S n) rest')
        end
      else
        continue_with (choose env con n choice s) (menu_loop env con (S n) rest)
  end.

Definition main (env : Env) (con : Console) (stdin : list string) : Run :=
  let r := menu_loop env con 0 stdin Analyzer.init in
  MkRun (ended r) (final r)
    (Did (Print (nl +:+ "ELECTION DATA ANALYZER"))
     :: Did (Print (repeat_string "=" 40)) :: console r).

(** The last line of a run that ends through the menu. *)
Definition goodbye : ConsoleEvent :=
  Did (Print "Exiting Election Data Analyzer. Goodbye!").

(** A console for the samples. *)
Definition sample_console : Console :=
  {| series_str := plain_to_string;
     stamp_at := fun n => "20240101_00000" +:+ pretty n;
     now_at := fun n => "2024-01-01 00:00:0" +:+ pretty n |}.

(** ** terminalBase.py: the chart methods of ElectionAnalyzerApp

    [generate_visualizations], [show_single_viz] and [show_multi_viz]. Of
    the object they read the stored results and keep [current_single_viz];
    figure, canvas and toolbar are the toolkit's. The toolkit may raise,
    which the methods catch: [clear_raises] is what
    [clear_visualization] raises, [draw_raises] what the drawing that
    follows the assignment of [current_single_viz] raises, if anything.
    When drawing raises, the charts drawn before that are not recorded. *)

Module Charts.

Record State := MkState {
  session : App.State;
  current_single_viz : option string
}.

(** [__init__] *)
Definition init : State := {| session := App.init; current_single_viz := None |}.

Record Toolkit := {
  clear_raises : option Exception;
  draw_raises : option Exception
}.

Inductive Event :=
| Widget (e : Effect)
| ClearVisualization
| Chart (title : string) (series : Series)
| Canvas.

Definition chart (results : gmap string Series) (kind title : string)
    (shown : Series -> Series) : list Event :=
  match results !! kind with
  | Some s => [Chart title (shown s)]
  | None => []
  end.

(** [stamp] is [datetime.now().strftime("%Y%m%d_%H%M%S")]. *)
Definition generate_visualizations (tk : Toolkit) (stamp : string) (s : State)
  : State * list Event :=
  let results := App.analysis_results (session s) in
  if bool_decide (results = ∅) then
    (s, [Widget (ShowWarning "No Results" "Please run analyses first")])
  else
    let failed e :=
      [Widget (ShowError "Visualization Error" (str_exc e));
       Widget (SetStatus "Error generating visualizations")] in
    match clear_raises tk with
    | Some e => (s, failed e)
    | None =>
        let s' := {| session := session s; current_single_viz := None |} in
        match draw_raises tk with
        | Some e => (s', ClearVisualization :: failed e)
        | None =>
            let output_file := "election_analysis_" +:+ stamp +:+ ".png" in
            (s', ClearVisualization
                 :: chart results "turnout_by_region" "Voter Turnout by Region" id
                 ++ chart results "party_performance" "Vote Share by Party" id
                 ++ chart results "candidate_performance"
                      "Top 10 Performing Candidates" (head 10)
                 ++ [Canvas;
                     Widget (SaveFigure output_file);
                     Widget (SetStatus
                       ("Visualizations generated and saved as "
                        +:+ output_file))])
        end
    end.

(** The chart [show_single_viz] draws: that of [viz_type], when its result
    is stored. *)
Definition single_chart (results : gmap string Series) (viz_type : string)
  : list Event :=
  if String.eqb viz_type "turnout"
     && bool_decide (is_Some (results !! "turnout_by_region")) then
    chart results "turnout_by_region" "Voter Turnout by Region" id
  else if String.eqb viz_type "party"
          && bool_decide (is_Some (results !! "party_performance")) then
    chart results "party_performance" "Vote Share by Party" id
  else if String.eqb viz_type "candidates"
          && bool_decide (is_Some (results !! "candidate_performance")) then
    chart results "candidate_performance" "Top 10 Performing Candidates"
      (head 10)
  else [].

Definition show_single_viz (tk : Toolkit) (viz_type : string) (s : State)
  : State * list Event :=
  let results := App.analysis_results (session s) in
  if bool_decide (results = ∅) then
    (s, [Widget (ShowWarning "No Results" "Please run analyses first")])
  else
    let failed e :=
      [Widget (ShowError "Visualization Error" (str_exc e));
       Widget (SetStatus ("Error showing " +:+ viz_type +:+ " visualization"))] in
    match clear_raises tk with
    | Some e => (s, failed e)
    | None =>
        let s' := {| session := session s;
                     current_single_viz := Some viz_type |} in
        match draw_raises tk with
        | Some e => (s', ClearVisualization :: failed e)
        | None =>
            (s', ClearVisualization
                 :: single_chart results viz_type
                 ++ [Canvas;
                     Widget (SetStatus
                       ("Showing maximized " +:+ viz_type +:+ " visualization"))])
        end
    end.

Definition show_multi_viz (tk : Toolkit) (stamp : string) (s : State)
  : State * list Event :=
  match current_single_viz s with
  | None => (s, [])
  | Some _ => generate_visualizations tk stamp s
  end.

End Charts.

(** A toolkit that raises nothing. *)
Definition quiet_toolkit : Charts.Toolkit :=
  {| Charts.clear_raises := None; Charts.draw_raises := None |}.

(** * Properties *)

(** ** 64-bit arithmetic *)

Lemma wrap64_range z : int64_min <= wrap64 z <= int64_max.
Proof.
  unfold wrap64, int64_min, int64_max.
  pose proof (Z.mod_pos_bound (z + 2 ^ 63) (2 ^ 64) ltac:(lia)). lia.
Qed.

Lemma wrap64_id z : int64_min <= z <= int64_max -> wrap64 z = z.
Proof.
  unfold wrap64, int64_min, int64_max. intros Hz.
  rewrite Z.mod_small by lia. lia.
Qed.

Lemma wrap64_add_l a b : wrap64 (wrap64 a + b) = wrap64 (a + b).
Proof.
  unfold wrap64. f_equal.
  replace ((a + 2 ^ 63) mod 2 ^ 64 - 2 ^ 63 + b + 2 ^ 63)
    with ((a + 2 ^ 63) mod 2 ^ 64 + b) by lia.
  rewrite Zplus_mod_idemp_l. f_equal. lia.
Qed.

Lemma wrap64_add_r a b : wrap64 (a + wrap64 b) = wrap64 (a + b).
Proof. rewrite (Z.add_comm a), wrap64_add_l. f_equal. lia. Qed.

Lemma fold_add64 l a : fold_left add64 l (wrap64 a) = wrap64 (a + zsum l).
Proof.
  revert a. induction l as [|x l IH]; intros a; simpl.
  - f_equal. lia.
  - unfold add64 at 2. rewrite wrap64_add_l, IH. f_equal. lia.
Qed.

(** The int64 sum is the mathematical sum, wrapped once. *)
Lemma sum64_zsum l : sum64 l = wrap64 (zsum l).
Proof.
  unfold sum64. change 0 with (wrap64 0) at 1. rewrite fold_add64. done.
Qed.

Lemma zsum_Permutation l1 l2 : l1 ≡ₚ l2 -> zsum l1 = zsum l2.
Proof. induction 1; simpl; lia. Qed.

(** Wrapping the summands first does not change the wrapped sum. *)
Lemma wrap64_zsum_map {A} (f : A -> Z) l :
  wrap64 (zsum (map (fun x => wrap64 (f x)) l)) = wrap64 (zsum (map f l)).
Proof.
  induction l as [|x l IH]; simpl; [done|].
  rewrite wrap64_add_l, <- wrap64_add_r, IH, wrap64_add_r. done.
Qed.

(** ** Insertion sort *)

Section InsertionSortFacts.
Context {A : Type} (leb : A -> A -> bool).

Local Abbreviation le := (le_of leb).

Lemma insert_Permutation x l : insert leb x l ≡ₚ x :: l.
Proof.
  induction l as [|y l IH]; simpl; [done|].
  destruct (leb x y); [done|]. rewrite IH. apply perm_swap.
Qed.

Lemma insertion_sort_Permutation l : insertion_sort leb l ≡ₚ l.
Proof.
  induction l as [|x l IH]; simpl; [done|].
  rewrite insert_Permutation. by f_equiv.
Qed.

Section Ordered.
Hypothesis leb_total : forall a b, leb a b = false -> leb b a = true.
Hypothesis leb_trans : forall a b c, le a b -> le b c -> le a c.

Lemma insert_StronglySorted x l :
  StronglySorted le l -> StronglySorted le (insert leb x l).
Proof.
  induction 1 as [|y l Hl IH Hy]; simpl.
  - repeat constructor.
  - destruct (leb x y) eqn:Hxy.
    + constructor; [by constructor|].
      constructor; [done|].
      eapply Forall_impl; [exact Hy|]. intros z Hz. by eapply leb_trans.
    + constructor; [done|].
      rewrite (Forall_forall (le y)). intros z Hz.
      rewrite insert_Permutation in Hz.
      apply elem_of_cons in Hz as [->|Hz].
      * by apply leb_total.
      * rewrite Forall_forall in Hy. by apply Hy.
Qed.

Lemma insertion_sort_StronglySorted l :
  StronglySorted le (insertion_sort leb l).
Proof.
  induction l; simpl; [constructor|]. by apply insert_StronglySorted.
Qed.
End Ordered.

(** Stability: elements that the order does not tell apart keep their
    relative order. [P] picks out such a class of elements. *)
Section Stable.
Context (P : A -> Prop) `{!forall x, Decision (P x)}.
Hypothesis P_tied : forall a b, P a -> P b -> le a b.


End Stable.
End InsertionSortFacts.

(** ** The order on labels *)

Lemma ascii_compare_refl c : Ascii.compare c c = Eq.
Proof. apply N.compare_refl. Qed.

Lemma ascii_compare_lt_trans a b c :
  Ascii.compare a b = Lt -> Ascii.compare b c = Lt -> Ascii.compare a c = Lt.
Proof. unfold Ascii.compare. rewrite !N.compare_lt_iff. lia. Qed.

Lemma string_compare_refl s : String.compare s s = Eq.
Proof. induction s; simpl; [done|]. by rewrite ascii_compare_refl. Qed.

Lemma string_compare_lt_trans a b c :
  String.compare a b = Lt -> String.compare b c = Lt -> String.compare a c = Lt.
Proof.
  revert b c. induction a as [|x a IH]; intros [|y b] [|z c]; simpl; try done.
  destruct (Ascii.compare x y) eqn:Hxy, (Ascii.compare y z) eqn:Hyz;
    try done; intros H1 H2.
  - apply Ascii.compare_eq_iff in Hxy as ->. rewrite Hyz. eauto.
  - apply Ascii.compare_eq_iff in Hxy as ->. by rewrite Hyz.
  - apply Ascii.compare_eq_iff in Hyz as <-. by rewrite Hxy.
  - by rewrite (ascii_compare_lt_trans x y z).
Qed.

Lemma label_compare_refl a : label_compare a a = Eq.
Proof. induction a; simpl; [done|]. by rewrite string_compare_refl. Qed.

Lemma label_compare_eq a b : label_compare a b = Eq -> a = b.
Proof.
  revert b. induction a as [|x a IH]; intros [|y b]; simpl; try done.
  destruct (String.compare x y) eqn:Hxy; try done.
  apply String.compare_eq_iff in Hxy as ->. intros H. f_equal. by apply IH.
Qed.

Lemma label_compare_antisym a b :
  label_compare a b = CompOpp (label_compare b a).
Proof.
  revert b. induction a as [|x a IH]; intros [|y b]; simpl; try done.
  rewrite (String.compare_antisym x y).
  destruct (String.compare y x); simpl; auto.
Qed.

Lemma label_lt_trans a b c : label_lt a b -> label_lt b c -> label_lt a c.
Proof.
  unfold label_lt. revert b c.
  induction a as [|x a IH]; intros [|y b] [|z c]; simpl; try done.
  destruct (String.compare x y) eqn:Hxy, (String.compare y z) eqn:Hyz;
    try done; intros H1 H2.
  - apply String.compare_eq_iff in Hxy as ->. rewrite Hyz. eauto.
  - apply String.compare_eq_iff in Hxy as ->. by rewrite Hyz.
  - apply String.compare_eq_iff in Hyz as <-. by rewrite Hxy.
  - by rewrite (string_compare_lt_trans x y z).
Qed.

Lemma label_leb_total a b : label_leb a b = false -> label_leb b a = true.
Proof.
  unfold label_leb. rewrite (label_compare_antisym b a).
  by destruct (label_compare a b).
Qed.

Lemma label_leb_lt a b : label_leb a b = true -> a <> b -> label_lt a b.
Proof.
  unfold label_leb, label_lt. destruct (label_compare a b) eqn:Hab; try done.
  apply label_compare_eq in Hab. done.
Qed.

Lemma label_leb_trans a b c :
  label_leb a b = true -> label_leb b c = true -> label_leb a c = true.
Proof.
  intros Hab Hbc.
  destruct (decide (a = b)) as [->|Hne1]; [done|].
  destruct (decide (b = c)) as [<-|Hne2]; [done|].
  pose proof (label_lt_trans a b c (label_leb_lt _ _ Hab Hne1)
                (label_leb_lt _ _ Hbc Hne2)) as Hac.
  unfold label_leb. by rewrite Hac.
Qed.

(** ** Groups *)

Lemma group_keys_Permutation ks : group_keys ks ≡ₚ remove_dups ks.
Proof. apply insertion_sort_Permutation. Qed.

Lemma elem_of_group_keys k ks : k ∈ group_keys ks <-> k ∈ ks.
Proof. by rewrite group_keys_Permutation, elem_of_remove_dups. Qed.

Lemma NoDup_group_keys ks : NoDup (group_keys ks).
Proof. rewrite group_keys_Permutation. apply NoDup_remove_dups. Qed.

Lemma StronglySorted_le_lt (l : list Label) :
  StronglySorted (le_of label_leb) l -> NoDup l ->
  StronglySorted label_lt l.
Proof.
  induction 1 as [|x l Hl IH Hx]; intros Hnd; [constructor|].
  apply NoDup_cons in Hnd as [Hx' Hnd]. constructor; [by apply IH|].
  rewrite Forall_forall in Hx |- *. intros y Hy.
  apply label_leb_lt; [by apply Hx|]. intros ->. done.
Qed.

(** Groups come out in strictly ascending label order. *)
Lemma group_keys_sorted ks : StronglySorted label_lt (group_keys ks).
Proof.
  apply StronglySorted_le_lt; [|apply NoDup_group_keys].
  apply insertion_sort_StronglySorted.
  - apply label_leb_total.
  - apply label_leb_trans.
Qed.

Lemma aggregate_keys obs : map fst (aggregate obs) = group_keys (map fst obs).
Proof. unfold aggregate. rewrite map_map. simpl. apply map_id. Qed.

Lemma elem_of_aggregate k t obs :
  (k, t) ∈ aggregate obs <-> k ∈ map fst obs /\ t = group_total k obs.
Proof.
  unfold aggregate. rewrite list_elem_of_fmap. split.
  - intros (k' & Heq & Hk). simpl in Heq. injection Heq as -> ->.
    rewrite elem_of_group_keys in Hk. done.
  - intros [Hk ->]. exists k. by rewrite elem_of_group_keys.
Qed.

(** ** Conservation of the grouped sums *)

Lemma group_values_cons k k0 v obs :
  group_values k ((k0, v) :: obs) =
  if decide (k0 = k) then v :: group_values k obs else group_values k obs.
Proof.
  unfold group_values. rewrite filter_cons. simpl.
  by destruct (decide (k0 = k)).
Qed.

Lemma zsum_map_add {A} (f g : A -> Z) l :
  zsum (map (fun x => f x + g x) l) = zsum (map f l) + zsum (map g l).
Proof. induction l; simpl; lia. Qed.

Lemma zsum_indicator_absent (k0 : Label) v ks :
  k0 ∉ ks -> zsum (map (fun k => if decide (k0 = k) then v else 0) ks) = 0.
Proof.
  induction ks as [|k ks IH]; simpl; [done|].
  rewrite not_elem_of_cons. intros [Hne Hk].
  destruct (decide (k0 = k)); [done|]. by rewrite IH.
Qed.

Lemma zsum_indicator (k0 : Label) v ks :
  NoDup ks -> k0 ∈ ks ->
  zsum (map (fun k => if decide (k0 = k) then v else 0) ks) = v.
Proof.
  induction 1 as [|k ks Hk Hnd IH]; simpl.
  - by rewrite elem_of_nil.
  - rewrite elem_of_cons. intros Hin. destruct (decide (k0 = k)) as [->|Hne].
    + rewrite zsum_indicator_absent by done. lia.
    + destruct Hin as [?|Hin]; [done|]. by rewrite IH.
Qed.

(** Summing group by group is summing everything, as long as every key
    that occurs is listed exactly once. *)
Lemma zsum_group_values ks obs :
  NoDup ks -> (forall k, k ∈ map fst obs -> k ∈ ks) ->
  zsum (map (fun k => zsum (group_values k obs)) ks) = zsum (map snd obs).
Proof.
  intros Hnd. induction obs as [|[k0 v] obs IH]; intros Hks; simpl.
  - clear Hnd Hks. induction ks as [|k ks IHks]; simpl; [done|].
    by rewrite IHks.
  - rewrite <- IH by (intros k Hk; apply Hks; simpl; by right).
    rewrite <- (zsum_indicator k0 v ks Hnd) at 1 by (apply Hks; simpl; by left).
    rewrite <- zsum_map_add. f_equal. apply map_ext. intros k.
    rewrite group_values_cons. by destruct (decide (k0 = k)).
Qed.

Lemma aggregate_totals obs :
  map snd (aggregate obs) =
  map (fun k => wrap64 (zsum (group_values k obs))) (group_keys (map fst obs)).
Proof.
  unfold aggregate. rewrite map_map. apply map_ext. intros k. simpl.
  apply sum64_zsum.
Qed.

(** In 64-bit arithmetic the group totals add up to the column total. *)
Lemma aggregate_conservation obs :
  sum64 (map snd (aggregate obs)) = sum64 (map snd obs).
Proof.
  rewrite !sum64_zsum, aggregate_totals, wrap64_zsum_map. f_equal.
  apply zsum_group_values; [apply NoDup_group_keys|].
  intros k. by rewrite elem_of_group_keys.
Qed.

Lemma zsum_group_values_bounds k obs :
  Forall (fun e => 0 <= snd e) obs ->
  0 <= zsum (group_values k obs) <= zsum (map snd obs).
Proof.
  induction 1 as [|[k0 v] obs Hv Hobs IH]; simpl; [done|].
  rewrite group_values_cons. simpl in Hv.
  destruct (decide (k0 = k)); simpl; lia.
Qed.


(** ** Ranking *)

Lemma sort_values_Permutation s : sort_values s ≡ₚ s.
Proof.
  unfold sort_values.
  by rewrite reverse_Permutation, insertion_sort_Permutation, reverse_Permutation.
Qed.

Lemma length_sort_values s : length (sort_values s) = length s.
Proof. apply Permutation_length, sort_values_Permutation. Qed.

Lemma StronglySorted_reverse {A} (R : relation A) l :
  StronglySorted R l -> StronglySorted (flip R) (reverse l).
Proof.
  induction 1 as [|x l Hl IH Hx]; [constructor|].
  rewrite reverse_cons. apply StronglySorted_app_2; [|done|repeat constructor].
  intros y z Hy Hz. apply list_elem_of_singleton in Hz as ->.
  rewrite Forall_forall in Hx. apply Hx. by apply elem_of_reverse.
Qed.

(** Totals come out in non-increasing order. *)
Lemma sort_values_sorted s : StronglySorted Z.ge (map snd (sort_values s)).
Proof.
  unfold sort_values.
  apply (StronglySorted_fmap snd (flip value_le)).
  - unfold flip, value_le, le_of, value_leb. intros x y Hxy.
    apply Z.leb_le in Hxy. lia.
  - apply StronglySorted_reverse, insertion_sort_StronglySorted.
    + unfold value_leb. intros a b. rewrite Z.leb_gt, Z.leb_le. lia.
    + unfold le_of, value_leb. intros a b c. rewrite !Z.leb_le. lia.
Qed.


(** ** Election tables are within the model *)

Lemma column_index_is_Some name cols :
  name ∈ cols -> is_Some (column_index name cols).
Proof.
  induction cols as [|c cols IH]; simpl; [by rewrite elem_of_nil|].
  rewrite elem_of_cons. intros Hin.
  destruct (String.eqb_spec c name) as [->|Hne]; [by eexists|].
  destruct Hin as [->|Hin]; [done|].
  destruct (IH Hin) as [i ->]. by eexists.
Qed.

Lemma has_required_columns_elem df name :
  has_required_columns df = true -> name ∈ required_columns ->
  name ∈ columns df.
Proof.
  unfold has_required_columns. rewrite forallb_forall. intros Hall Hin.
  apply (bool_decide_eq_true_1 _). apply Hall. by apply list_elem_of_In.
Qed.

Lemma valid_row_text df row name :
  valid_row df row = true -> name ∈ key_columns ->
  is_text (field df name row) = true.
Proof.
  unfold valid_row, key_columns. rewrite !andb_true_iff.
  intros [[[H1 H2] H3] _] Hin.
  repeat (apply elem_of_cons in Hin as [->|Hin]; [done|]).
  by apply elem_of_nil in Hin.
Qed.

Lemma valid_row_count df row :
  valid_row df row = true -> is_count (field df "votes" row) = true.
Proof. unfold valid_row. rewrite !andb_true_iff. tauto. Qed.

Lemma resolve_valid df by_ :
  has_required_columns df = true -> Forall (fun n => n ∈ key_columns) by_ ->
  exists idx, resolve by_ (columns df) = Returns idx /\
    forall row, valid_row df row = true ->
      row_key idx row = Some (Some (row_label df by_ row)).
Proof.
  intros Hreq. induction 1 as [|n by_ Hn Hby (idx & Hidx & Hkey)]; simpl.
  - by exists [].
  - assert (n ∈ required_columns) as Hn'.
    { revert Hn. unfold key_columns, required_columns.
      rewrite !elem_of_cons. tauto. }
    destruct (column_index_is_Some n (columns df)) as [i Hi].
    { by apply has_required_columns_elem. }
    rewrite Hi, Hidx. simpl. exists (i :: idx). split; [done|].
    intros row Hrow. simpl. rewrite (Hkey row Hrow).
    pose proof (valid_row_text df row n Hrow Hn) as Htext.
    unfold field in *. rewrite Hi in *.
    by destruct (cell_at i row).
Qed.

Lemma value_cell_count c : is_count c = true -> value_cell c = Some (int_of c).
Proof.
  destruct c as [z| | |]; simpl; try done.
  rewrite andb_true_iff, Z.leb_le, Z.leb_le. intros [H0 Hmax].
  unfold in_int64, int64_min. rewrite (proj2 (Z.leb_le _ _)) by lia.
  by rewrite (proj2 (Z.leb_le _ _)) by lia.
Qed.

(** On an election table the grouping is within the model, and no row is
    dropped. *)
Lemma groupby_sum_valid df by_ :
  valid_table df = true -> Forall (fun n => n ∈ key_columns) by_ ->
  groupby_sum df by_ "votes" = Returns (aggregate (records df by_)).
Proof.
  unfold valid_table. rewrite andb_true_iff, forallb_forall.
  intros [Hreq Hrows] Hby.
  destruct (resolve_valid df by_ Hreq Hby) as (idx & Hidx & Hkey).
  unfold groupby_sum. rewrite Hidx. simpl.
  destruct (column_index_is_Some "votes" (columns df)) as [vi Hvi].
  { apply has_required_columns_elem; [done|].
    unfold required_columns. set_solver. }
  rewrite Hvi.
  assert (entries idx vi (rows df)
          = Some (map (fun e => (Some (fst e), snd e)) (records df by_))) as ->.
  { unfold records. induction (rows df) as [|row rs IH]; simpl; [done|].
    rewrite IH by (intros r Hr; apply Hrows; by right).
    assert (valid_row df row = true) as Hrow by (apply Hrows; by left).
    unfold row_entry. rewrite (Hkey row Hrow).
    pose proof (value_cell_count _ (valid_row_count df row Hrow)) as Hv.
    unfold field in Hv |- *. rewrite Hvi in Hv |- *. by rewrite Hv. }
  do 2 f_equal. unfold observed.
  induction (records df by_) as [|[k v] obs IH]; [done|].
  cbn. f_equal. exact IH.
Qed.

Lemma kind_by_key_columns k : Forall (fun n => n ∈ key_columns) (kind_by k).
Proof. unfold key_columns. destruct k; simpl; repeat constructor; set_solver. Qed.

Lemma map_snd_records df by_ : map snd (records df by_) = votes df.
Proof. unfold records, votes. by rewrite map_map. Qed.

Lemma map_fst_records df by_ :
  map fst (records df by_) = map (row_label df by_) (rows df).
Proof. unfold records. by rewrite map_map. Qed.

Lemma votes_nonneg df :
  valid_table df = true -> Forall (fun v => 0 <= v) (votes df).
Proof.
  unfold valid_table, votes. rewrite andb_true_iff, forallb_forall.
  intros [_ Hrows]. rewrite Forall_fmap, Forall_forall. intros row Hrow. simpl.
  pose proof (valid_row_count df row (Hrows row (proj1 (list_elem_of_In _ _) Hrow))) as Hc.
  destruct (field df "votes" row); simpl in *; try done.
  apply andb_true_iff in Hc as [Hc _]. by apply Z.leb_le.
Qed.

(** ** The analysis methods on an election table *)

Lemma analyzer_run_unfold k :
  Analyzer.run k = Analyzer.analyze (kind_by k) (kind_name k).
Proof. by destruct k. Qed.

Lemma analyzer_run_valid k s df :
  Analyzer.data s = Some df -> valid_table df = true ->
  Analyzer.run k s =
  MkStep (Returns (ranked_series df k))
    {| Analyzer.data := Some df;
       Analyzer.analysis_results :=
         <[kind_name k := ranked_series df k]> (Analyzer.analysis_results s);
       Analyzer.visualizations := Analyzer.visualizations s |}
    [].
Proof.
  intros Hdata Hvalid. rewrite analyzer_run_unfold.
  unfold Analyzer.analyze, Analyzer.validate_data. rewrite Hdata.
  pose proof Hvalid as Hreq. unfold valid_table in Hreq.
  apply andb_true_iff in Hreq as [-> _].
  by rewrite (groupby_sum_valid df (kind_by k) Hvalid (kind_by_key_columns k)).
Qed.

Lemma app_run_valid env k s df :
  App.data s = Some df -> valid_table df = true ->
  App.analysis_results (state (App.run env k s)) =
    <[kind_name k := ranked_series df k]> (App.analysis_results s) /\
  App.data (state (App.run env k s)) = Some df /\
  result (App.run env k s) = Returns tt.
Proof.
  intros Hdata Hvalid.
  pose proof (groupby_sum_valid df _ Hvalid (kind_by_key_columns k)) as Hg.
  destruct k; simpl in Hg |- *;
    unfold App.analyze_turnout, App.analyze_party_performance,
      App.analyze_candidate_performance, App.analyze, App.validate_data;
    rewrite Hdata; simpl; rewrite Hg; simpl; rewrite ?Hdata; done.
Qed.

(** ** Loading *)

Lemma analyzer_load_data_results env path s :
  Analyzer.analysis_results (state (Analyzer.load_data env path s))
  = Analyzer.analysis_results s.
Proof.
  unfold Analyzer.load_data.
  destruct (path_exists env path); simpl; [|done].
  destruct (endswith path ".csv"); [by destruct (read_csv env path)|].
  destruct (endswith path ".json"); [by destruct (read_json env path)|done].
Qed.

Lemma app_load_data_results env file_type path s :
  App.analysis_results (state (App.load_data env file_type path s))
  = App.analysis_results s.
Proof.
  unfold App.load_data.
  destruct (String.eqb path EmptyString); [done|].
  destruct (String.eqb file_type "csv").
  { destruct (read_csv env path) as [df|e]; simpl; [|done].
    by destruct (has_required_columns df). }
  destruct (String.eqb file_type "json").
  { destruct (read_json env path) as [df|e]; simpl; [|done].
    by destruct (has_required_columns df). }
  destruct (App.data s) as [df|]; [|done].
  by destruct (has_required_columns df).
Qed.

(** C1, as the code has it. A load that succeeds replaces the stored table
    and nothing else: the analysis-results mapping of the command-line
    analyzer and of the desktop shell is exactly what it was before the
    load, so results computed from the previous table stay stored until the
    analysis is run again. *)
Theorem load_data_keeps_analysis_results env path file_type s a :
  result (Analyzer.load_data env path s) = Returns true ->
  (exists df, Analyzer.data (state (Analyzer.load_data env path s)) = Some df) /\
  Analyzer.analysis_results (state (Analyzer.load_data env path s))
    = Analyzer.analysis_results s /\
  Analyzer.visualizations (state (Analyzer.load_data env path s))
    = Analyzer.visualizations s /\
  App.analysis_results (state (App.load_data env file_type path a))
    = App.analysis_results a.
Proof.
  intros Hok. split; [|split; [apply analyzer_load_data_results|split;
    [|apply app_load_data_results]]]; revert Hok; unfold Analyzer.load_data;
    destruct (path_exists env path); simpl; try done;
    (destruct (endswith path ".csv");
      [destruct (read_csv env path); simpl; by eauto|]);
    (destruct (endswith path ".json");
      [destruct (read_json env path); simpl; by eauto|]); done.
Qed.

Lemma load_data_keeps_analysis_results_witness :
  (exists df, Analyzer.data (state (Analyzer.load_data sample_env "second.csv"
     (state (Analyzer.analyze_turnout (analyzer_with scenario_table))))) = Some df) /\
  Analyzer.analysis_results (state (Analyzer.load_data sample_env "second.csv"
     (state (Analyzer.analyze_turnout (analyzer_with scenario_table)))))
  = Analyzer.analysis_results
      (state (Analyzer.analyze_turnout (analyzer_with scenario_table))).
Proof.
  destruct (load_data_keeps_analysis_results sample_env "second.csv" "csv"
    (state (Analyzer.analyze_turnout (analyzer_with scenario_table))) App.init
    eq_refl) as (H1 & H2 & _).
  split; [exact H1|exact H2].
Defined.

(** C1, as it is written, fails: after the turnout of the first file has
    been computed, loading the second file succeeds, and the turnout of the
    first file is still stored. *)
Lemma reload_keeps_stale_results :
  let loaded := state (Analyzer.load_data sample_env "first.csv" Analyzer.init) in
  let analyzed := state (Analyzer.analyze_turnout loaded) in
  let reloaded := Analyzer.load_data sample_env "second.csv" analyzed in
  Analyzer.data loaded = Some scenario_table /\
  result reloaded = Returns true /\
  Analyzer.data (state reloaded) = Some tied_table /\
  Analyzer.analysis_results (state reloaded) !! "turnout_by_region"
    = Some [(["RegionA"], 150); (["RegionB"], 30)] /\
  Analyzer.analysis_results (state reloaded) <> ∅.
Proof.
  cbv zeta. repeat split; by vm_compute.
Qed.

(** ** Validation *)

Lemma has_required_columns_incl cols rs :
  required_columns ⊆ cols ->
  has_required_columns {| columns := cols; rows := rs |} = true.
Proof.
  intros Hincl. unfold has_required_columns. apply forallb_forall.
  intros col Hcol. apply bool_decide_eq_true_2. simpl.
  apply Hincl. by apply list_elem_of_In.
Qed.

(** C2, as the code has it. Validation looks at the column names only: for
    every table that has the four required columns it succeeds, whatever
    the cells of the votes column (or of any column) hold, and when a
    required column is missing it raises the error that lists the missing
    names. No cell is read, and no error about a votes value exists. *)
Theorem validate_data_checks_columns_only cols rs s :
  Analyzer.data s = Some {| columns := cols; rows := rs |} ->
  (required_columns ⊆ cols -> Analyzer.validate_data s = Returns true) /\
  (~ required_columns ⊆ cols ->
   Analyzer.validate_data s =
     Raises (ValueError ("Missing required columns: "
       +:+ repr_list (filter (fun col => col ∉ cols) required_columns)))).
Proof.
  intros Hdata. unfold Analyzer.validate_data. rewrite Hdata. split.
  - intros Hincl. by rewrite has_required_columns_incl.
  - intros Hnot.
    destruct (has_required_columns _) eqn:Hreq; [|done].
    destruct Hnot. intros col Hcol.
    by apply (has_required_columns_elem _ _ Hreq).
Qed.

Lemma validate_data_checks_columns_only_witness :
  Analyzer.validate_data (analyzer_with bad_votes_table) = Returns true /\
  Analyzer.validate_data
    (analyzer_with {| columns := ["region"; "candidate"; "votes"]; rows := [] |})
  = Raises (ValueError "Missing required columns: ['party']").
Proof.
  split.
  - apply (validate_data_checks_columns_only election_columns
             (rows bad_votes_table) (analyzer_with bad_votes_table) eq_refl).
    by apply (bool_decide_unpack _).
  - apply (validate_data_checks_columns_only ["region"; "candidate"; "votes"] []
             (analyzer_with {| columns := ["region"; "candidate"; "votes"];
                               rows := [] |}) eq_refl).
    by apply (bool_decide_unpack _).
Defined.

(** C2, as it is written, fails: the table has all four columns, its votes
    cells are a negative number, a fraction and a word, and validation
    returns [True]. *)
Lemma validate_data_accepts_bad_votes :
  has_required_columns bad_votes_table = true /\
  map (field bad_votes_table "votes") (rows bad_votes_table)
    = [CInt (-5); CFloat 3 (-1); CStr "many"] /\
  Analyzer.validate_data (analyzer_with bad_votes_table) = Returns true.
Proof. repeat split; by vm_compute. Qed.

(** ** Running an analysis *)

Lemma analyzer_run_no_data k s :
  Analyzer.data s = None ->
  Analyzer.run k s = MkStep (Raises Analyzer.no_data_loaded) s [].
Proof.
  intros Hdata. rewrite analyzer_run_unfold. unfold Analyzer.analyze.
  by rewrite Hdata.
Qed.

Lemma app_run_no_data env k s :
  App.data s = None ->
  App.run env k s =
  MkStep (Returns tt) s [ShowWarning "No Data" "Please load election data first"].
Proof.
  intros Hdata.
  destruct k; simpl;
    unfold App.analyze_turnout, App.analyze_party_performance,
      App.analyze_candidate_performance, App.analyze, App.validate_data;
    by rewrite Hdata.
Qed.

Lemma analyzer_run_Returns k s df grouped :
  Analyzer.data s = Some df -> has_required_columns df = true ->
  groupby_sum df (kind_by k) "votes" = Returns grouped ->
  Analyzer.run k s =
  MkStep (Returns (sort_values grouped))
    {| Analyzer.data := Some df;
       Analyzer.analysis_results :=
         <[kind_name k := sort_values grouped]> (Analyzer.analysis_results s);
       Analyzer.visualizations := Analyzer.visualizations s |}
    [].
Proof.
  intros Hdata Hreq Hg. rewrite analyzer_run_unfold.
  unfold Analyzer.analyze, Analyzer.validate_data.
  by rewrite Hdata, Hreq, Hg.
Qed.

Lemma analyzer_run_Raises k s e :
  result (Analyzer.run k s) = Raises e ->
  state (Analyzer.run k s) = s /\ effects (Analyzer.run k s) = [].
Proof.
  rewrite analyzer_run_unfold. unfold Analyzer.analyze, Analyzer.validate_data.
  destruct (Analyzer.data s) as [df|]; [|done].
  destruct (has_required_columns df); [|done].
  by destruct (groupby_sum df (kind_by k) "votes").
Qed.

Lemma app_run_Returns env k a df grouped :
  App.data a = Some df ->
  groupby_sum df (kind_by k) "votes" = Returns grouped ->
  state (App.run env k a) =
  {| App.data := Some df;
     App.analysis_results :=
       <[kind_name k := sort_values grouped]> (App.analysis_results a) |}.
Proof.
  intros Hdata Hg.
  destruct k; simpl in Hg |- *;
    unfold App.analyze_turnout, App.analyze_party_performance,
      App.analyze_candidate_performance, App.analyze, App.validate_data;
    rewrite Hdata; simpl; rewrite Hg; simpl; rewrite ?Hdata; done.
Qed.

(** C7. With no table loaded every analysis fails: the analyzer raises the
    no-data error, the desktop shell shows the no-data warning; in both the
    state, and with it the stored results, is what it was, and nothing else
    happens. Whenever the analyzer raises, its state is what it was, so no
    partial result is stored. With a table loaded that has the required
    columns, the analysis stores the ranked series of what grouping
    returns under the name of its kind, replacing what was stored there,
    and changes nothing else; on an election table grouping does return. *)
Theorem analysis_needs_loaded_data env k :
  (forall s, Analyzer.data s = None ->
     Analyzer.run k s = MkStep (Raises Analyzer.no_data_loaded) s []) /\
  (forall a, App.data a = None ->
     App.run env k a =
     MkStep (Returns tt) a
       [ShowWarning "No Data" "Please load election data first"]) /\
  (forall s e, result (Analyzer.run k s) = Raises e ->
     state (Analyzer.run k s) = s /\ effects (Analyzer.run k s) = []) /\
  (forall s df grouped,
     Analyzer.data s = Some df -> has_required_columns df = true ->
     groupby_sum df (kind_by k) "votes" = Returns grouped ->
     Analyzer.run k s =
     MkStep (Returns (sort_values grouped))
       {| Analyzer.data := Some df;
          Analyzer.analysis_results :=
            <[kind_name k := sort_values grouped]> (Analyzer.analysis_results s);
          Analyzer.visualizations := Analyzer.visualizations s |}
       []) /\
  (forall a df grouped,
     App.data a = Some df ->
     groupby_sum df (kind_by k) "votes" = Returns grouped ->
     state (App.run env k a) =
     {| App.data := Some df;
        App.analysis_results :=
          <[kind_name k := sort_values grouped]> (App.analysis_results a) |}) /\
  (forall df, valid_table df = true ->
     groupby_sum df (kind_by k) "votes"
     = Returns (aggregate (records df (kind_by k)))).
Proof.
  split; [|split; [|split; [|split; [|split]]]].
  - intros s. apply analyzer_run_no_data.
  - intros a. apply app_run_no_data.
  - intros s e. apply analyzer_run_Raises.
  - intros s df grouped. apply analyzer_run_Returns.
  - intros a df grouped. apply app_run_Returns.
  - intros df Hvalid. by apply groupby_sum_valid, kind_by_key_columns.
Qed.

Lemma analysis_needs_loaded_data_witness :
  Analyzer.run PartyPerformance Analyzer.init
    = MkStep (Raises (ValueError "No data loaded. Please load data first."))
        Analyzer.init [] /\
  App.run sample_env PartyPerformance App.init
    = MkStep (Returns tt) App.init
        [ShowWarning "No Data" "Please load election data first"] /\
  state (Analyzer.run PartyPerformance Analyzer.init) = Analyzer.init /\
  Analyzer.analysis_results
    (state (Analyzer.run PartyPerformance (analyzer_with scenario_table)))
    = {[ "party_performance" := [(["PartyX"], 130); (["PartyY"], 50)] ]} /\
  App.analysis_results
    (state (App.run sample_env PartyPerformance (app_with scenario_table)))
    = {[ "party_performance" := [(["PartyX"], 130); (["PartyY"], 50)] ]}.
Proof.
  destruct (analysis_needs_loaded_data sample_env PartyPerformance)
    as (H1 & H2 & H3 & H4 & H5 & H6).
  split; [exact (H1 Analyzer.init eq_refl)|].
  split; [exact (H2 App.init eq_refl)|].
  split; [exact (proj1 (H3 Analyzer.init _ eq_refl))|].
  pose proof (H6 scenario_table eq_refl) as Hg.
  split.
  - rewrite (H4 (analyzer_with scenario_table) scenario_table _
               eq_refl eq_refl Hg).
    by vm_compute.
  - rewrite (H5 (app_with scenario_table) scenario_table _ eq_refl Hg).
    by vm_compute.
Defined.

(** C10. Running the analysis of one kind leaves the frame and every entry
    of the results mapping stored under another name as they were, in the
    analyzer and in the desktop shell, whatever the call's outcome. *)
Theorem analysis_writes_only_its_kind env k j :
  j <> kind_name k ->
  (forall s,
     Analyzer.analysis_results (state (Analyzer.run k s)) !! j
       = Analyzer.analysis_results s !! j /\
     Analyzer.data (state (Analyzer.run k s)) = Analyzer.data s) /\
  (forall a,
     App.analysis_results (state (App.run env k a)) !! j
       = App.analysis_results a !! j /\
     App.data (state (App.run env k a)) = App.data a).
Proof.
  intros Hj. split.
  - intros s. rewrite analyzer_run_unfold.
    unfold Analyzer.analyze, Analyzer.validate_data.
    destruct (Analyzer.data s) as [df|] eqn:Hdata; [|done].
    destruct (has_required_columns df); [|done].
    destruct (groupby_sum df (kind_by k) "votes"); simpl; try done.
    by rewrite lookup_insert_ne.
  - intros a.
    assert (forall by_ title shown done_ failed,
      let a' := state (App.analyze env by_ (kind_name k) title shown done_
                         failed a) in
      App.analysis_results a' !! j = App.analysis_results a !! j /\
      App.data a' = App.data a) as Hgen.
    { intros by_ title shown done_ failed. unfold App.analyze, App.validate_data.
      destruct (App.data a) as [df|] eqn:Hdata; simpl; [|done].
      destruct (groupby_sum df by_ "votes"); simpl; try done.
      by rewrite lookup_insert_ne. }
    destruct k; apply Hgen.
Qed.

Lemma analysis_writes_only_its_kind_witness :
  Analyzer.analysis_results
    (state (Analyzer.run PartyPerformance
       (state (Analyzer.run TurnoutByRegion (analyzer_with scenario_table)))))
    !! "turnout_by_region"
  = Some [(["RegionA"], 150); (["RegionB"], 30)].
Proof.
  destruct (analysis_writes_only_its_kind sample_env PartyPerformance
              "turnout_by_region" ltac:(by vm_compute)) as [H _].
  rewrite (proj1 (H _)). by vm_compute.
Defined.

(** ** Reports *)

Lemma string_app_nil_r s : s +:+ EmptyString = s.
Proof.
  induction s as [|c s IH]; [done|].
  change (String c (s +:+ EmptyString) = String c s). by rewrite IH.
Qed.

Lemma string_app_assoc a b c : (a +:+ b) +:+ c = a +:+ (b +:+ c).
Proof.
  induction a as [|x a IH]; [done|].
  change (String x ((a +:+ b) +:+ c) = String x (a +:+ (b +:+ c))).
  by rewrite IH.
Qed.

Lemma written_cons x l : written (x :: l) = x +:+ written l.
Proof.
  unfold written, join. destruct l; simpl; [by rewrite string_app_nil_r|done].
Qed.

Lemma written_app l1 l2 : written (l1 ++ l2) = written l1 +:+ written l2.
Proof.
  induction l1 as [|x l1 IH]; [done|].
  change ((x :: l1) ++ l2) with (x :: (l1 ++ l2)).
  by rewrite !written_cons, IH, string_app_assoc.
Qed.

Lemma written_opening now :
  written (opening_writes now) = report_title +:+ timestamp_line now.
Proof.
  unfold opening_writes, report_title, timestamp_line.
  rewrite !written_cons. change (written []) with EmptyString.
  by rewrite string_app_nil_r, !string_app_assoc.
Qed.

Lemma written_block_writes env heading results k :
  written (block_writes env results (kind_name k) (heading k) (top_n k))
  = written (from_option (fun s => [render env heading k s]) []
               (results !! kind_name k)).
Proof.
  unfold block_writes, render. destruct (results !! kind_name k); simpl; [|done].
  rewrite !written_cons. change (written []) with EmptyString.
  by rewrite !string_app_nil_r, !string_app_assoc.
Qed.

Lemma written_blocks env heading results :
  written (block_writes env results "turnout_by_region"
             (heading TurnoutByRegion) id
           ++ block_writes env results "party_performance"
                (heading PartyPerformance) id
           ++ block_writes env results "candidate_performance"
                (heading CandidatePerformance) (head 10))
  = written (available_blocks env heading results).
Proof.
  rewrite !written_app.
  pose proof (written_block_writes env heading results TurnoutByRegion) as H1.
  pose proof (written_block_writes env heading results PartyPerformance) as H2.
  pose proof (written_block_writes env heading results CandidatePerformance) as H3.
  unfold block_writes, head in *. simpl in H1, H2, H3.
  unfold id. rewrite H1, H2, H3.
  unfold available_blocks, report_order. simpl.
  destruct (results !! "turnout_by_region"), (results !! "party_performance"),
    (results !! "candidate_performance"); simpl;
    rewrite ?written_cons; change (written []) with EmptyString;
    by rewrite ?string_app_nil_r.
Qed.

(** C9, as the code has it. The report written by either class is the
    title, the timestamp line, and one block for each kind that has a
    stored result, in the order turnout, party, candidate, the candidate
    block showing the first ten entries; a kind without a stored result
    contributes nothing. The command-line analyzer then adds one line
    naming the chart file when one has been recorded. The text is
    determined by the stored results (and the recorded chart file): the
    loaded frame plays no part, and the state is left as it was. *)
Theorem report_is_composed_from_stored_results env now path :
  (forall s,
     written (Analyzer.report_writes env now s)
     = compose_report env analyzer_heading (Analyzer.analysis_results s) now
       +:+ visualization_line (Analyzer.visualizations s)) /\
  (forall a,
     written (App.report_writes env now a)
     = compose_report env app_heading (App.analysis_results a) now) /\
  (forall s, state (Analyzer.generate_report env now path s) = s) /\
  (forall a, state (App.generate_report env now path a) = a).
Proof.
  split; [|split; [|split]].
  - intros s. unfold Analyzer.report_writes, compose_report, visualization_line.
    rewrite written_app, written_opening, !app_assoc, written_app.
    rewrite <- !app_assoc, (written_blocks env analyzer_heading).
    rewrite !string_app_assoc. do 3 f_equal.
    destruct (Analyzer.visualizations s !! "latest"); [|done].
    rewrite written_cons. apply string_app_nil_r.
  - intros a. unfold App.report_writes, compose_report.
    rewrite written_app, written_opening, (written_blocks env app_heading).
    by rewrite !string_app_assoc.
  - intros s. unfold Analyzer.generate_report. by case_bool_decide.
  - intros a. unfold App.generate_report. case_bool_decide; [done|].
    by destruct (String.eqb path EmptyString).
Qed.

(** C9, as it is written, fails for the command-line analyzer: once a chart
    has been generated, the report carries a line after the last analysis
    block, so it is not just title, timestamp and blocks. *)
Lemma report_ends_with_visualization_line :
  let analyzed := state (Analyzer.analyze_turnout (analyzer_with scenario_table)) in
  let s := state (Analyzer.generate_visualizations "20240101_000000" analyzed) in
  let now := "2024-01-01 00:00:00" in
  Analyzer.analysis_results s <> ∅ /\
  result (Analyzer.generate_report sample_env now "election_report.txt" s)
    = Returns "election_report.txt" /\
  written (Analyzer.report_writes sample_env now s)
    = compose_report sample_env analyzer_heading (Analyzer.analysis_results s) now
      +:+ "Visualization saved to: election_analysis_20240101_000000.png" +:+ nl /\
  written (Analyzer.report_writes sample_env now s)
    <> compose_report sample_env analyzer_heading (Analyzer.analysis_results s) now.
Proof. cbv zeta. repeat split; by vm_compute. Qed.




(** ** What grouping returns *)

Lemma groupby_sum_Returns df by_ value grouped :
  groupby_sum df by_ value = Returns grouped ->
  exists idx vi es,
    resolve by_ (columns df) = Returns idx /\
    entries idx vi (rows df) = Some es /\
    grouped = aggregate (observed es).
Proof.
  unfold groupby_sum.
  destruct (resolve by_ (columns df)) as [idx| |]; simpl; try done.
  destruct (column_index value (columns df)) as [vi|]; [|done].
  destruct (entries idx vi (rows df)) as [es|] eqn:Hes; [|done].
  intros [= <-]. by exists idx, vi, es.
Qed.

(** Every label that takes part in the grouping is the key of a row. *)
Lemma observed_label_has_row idx vi rs es k :
  entries idx vi rs = Some es -> k ∈ map fst (observed es) ->
  exists row, row ∈ rs /\ row_key idx row = Some (Some k).
Proof.
  revert es. induction rs as [|r rs IH]; intros es; simpl.
  - intros [= <-]. by rewrite elem_of_nil.
  - destruct (row_entry idx vi r) as [[key v]|] eqn:Hr; [|done].
    destruct (entries idx vi rs) as [es'|]; [|done].
    intros [= <-]. unfold observed. cbn.
    unfold row_entry in Hr.
    destruct (row_key idx r) as [key'|] eqn:Hkey; [|done].
    destruct (value_cell (cell_at vi r)); [|done].
    injection Hr as -> ->.
    destruct key as [label|]; cbn.
    + rewrite elem_of_cons. intros [->|Hin].
      * exists r. split; [by left|done].
      * destruct (IH es' eq_refl Hin) as (row & Hrow & Hk).
        exists row. split; [by right|done].
    + intros Hin. destruct (IH es' eq_refl Hin) as (row & Hrow & Hk).
      exists row. split; [by right|done].
Qed.

Lemma NoDup_aggregate obs : NoDup (map fst (aggregate obs)).
Proof. rewrite aggregate_keys. apply NoDup_group_keys. Qed.

Lemma sum64_Permutation l1 l2 : l1 ≡ₚ l2 -> sum64 l1 = sum64 l2.
Proof. intros Hp. rewrite !sum64_zsum. f_equal. by apply zsum_Permutation. Qed.


(** C5. For every series that grouping returns, the ranked series is a
    rearrangement of it: it has one entry per distinct group, every label
    in it is the key of some row of the table (nothing is filled in for
    groups without rows), and its totals are in non-increasing order. *)
Theorem ranked_series_has_all_groups_sorted df by_ value grouped :
  groupby_sum df by_ value = Returns grouped ->
  sort_values grouped ≡ₚ grouped /\
  length (sort_values grouped) = length (remove_dups (map fst grouped)) /\
  NoDup (map fst (sort_values grouped)) /\
  StronglySorted Z.ge (map snd (sort_values grouped)) /\
  (forall k, k ∈ map fst (sort_values grouped) ->
     exists idx row, resolve by_ (columns df) = Returns idx /\
       row ∈ rows df /\ row_key idx row = Some (Some k)).
Proof.
  intros Hg.
  destruct (groupby_sum_Returns _ _ _ _ Hg) as (idx & vi & es & Hidx & Hes & ->).
  pose proof (sort_values_Permutation (aggregate (observed es))) as Hperm.
  split; [done|]. split; [|split; [|split]].
  - rewrite length_sort_values.
    rewrite <- (length_map fst (aggregate _)).
    apply Permutation_length. symmetry.
    apply NoDup_Permutation;
      [apply NoDup_remove_dups|apply NoDup_aggregate|].
    intros k. apply elem_of_remove_dups.
  - rewrite Hperm. apply NoDup_aggregate.
  - apply sort_values_sorted.
  - intros k. rewrite Hperm, aggregate_keys, elem_of_group_keys.
    intros Hk. destruct (observed_label_has_row idx vi _ es k Hes Hk)
      as (row & Hrow & Hkey).
    by exists idx, row.
Qed.

Lemma ranked_series_has_all_groups_sorted_witness :
  sort_values [(["PartyX"], 130); (["PartyY"], 50)]
    ≡ₚ [(["PartyX"], 130); (["PartyY"], 50)] /\
  length (sort_values [(["PartyX"], 130); (["PartyY"], 50)]) = 2%nat.
Proof.
  destruct (ranked_series_has_all_groups_sorted scenario_table ["party"] "votes"
              [(["PartyX"], 130); (["PartyY"], 50)] eq_refl) as (H1 & H2 & _).
  split; [exact H1|exact H2].
Defined.



(** ** Ties *)





(** ** Candidate performance *)

(** C6. Candidate performance groups by the pair of candidate and party.
    On every election table the ranked series has exactly one entry for
    each pair that occurs in some row, no two entries share a pair, and the
    total of a pair is the 64-bit sum of the votes of the rows that carry
    both that candidate and that party; so rows with the same candidate
    and different parties fall into different groups. On the scenario of
    the specification the result is Alice of PartyX with 130 and Bob of
    PartyY with 50, in the analyzer and in the desktop shell. *)
Theorem candidate_performance_groups_by_pair env s a df :
  Analyzer.data s = Some df -> App.data a = Some df -> valid_table df = true ->
  (exists ranked,
    result (Analyzer.analyze_candidate_performance s) = Returns ranked /\
    App.analysis_results (state (App.analyze_candidate_performance env a))
      !! "candidate_performance" = Some ranked /\
    NoDup (map fst ranked) /\
    (forall label t, (label, t) ∈ ranked <->
       (exists row, row ∈ rows df /\
          label = [text_of (field df "candidate" row);
                   text_of (field df "party" row)]) /\
       t = sum64 (map snd (filter (fun e => fst e = label)
                             (records df ["candidate"; "party"]))))) /\
  result (Analyzer.analyze_candidate_performance (analyzer_with scenario_table))
    = Returns [(["Alice"; "PartyX"], 130); (["Bob"; "PartyY"], 50)] /\
  App.analysis_results
    (state (App.analyze_candidate_performance env (app_with scenario_table)))
    !! "candidate_performance"
    = Some [(["Alice"; "PartyX"], 130); (["Bob"; "PartyY"], 50)].
Proof.
  intros Hs Ha Hvalid. split; [|split; by vm_compute].
  exists (ranked_series df CandidatePerformance).
  pose proof (analyzer_run_valid CandidatePerformance s df Hs Hvalid) as Hrun.
  simpl in Hrun. rewrite Hrun. split; [done|].
  destruct (app_run_valid env CandidatePerformance a df Ha Hvalid) as (Happ & _).
  simpl in Happ. rewrite Happ. split; [by rewrite lookup_insert_eq|].
  unfold ranked_series. simpl.
  pose proof (sort_values_Permutation
    (aggregate (records df ["candidate"; "party"]))) as Hperm.
  split; [rewrite Hperm; apply NoDup_aggregate|].
  intros label t. rewrite Hperm, elem_of_aggregate, map_fst_records.
  rewrite list_elem_of_fmap. unfold group_total, group_values, row_label.
  simpl. split.
  - intros [(row & -> & Hrow) ->]. split; [by exists row|done].
  - intros [(row & Hrow & ->) ->]. split; [by exists row|done].
Qed.

Lemma candidate_performance_groups_by_pair_witness :
  exists ranked,
    result (Analyzer.analyze_candidate_performance (analyzer_with scenario_table))
      = Returns ranked /\
    (["Alice"; "PartyX"], 130) ∈ ranked.
Proof.
  destruct (candidate_performance_groups_by_pair sample_env
              (analyzer_with scenario_table) (app_with scenario_table)
              scenario_table eq_refl eq_refl eq_refl)
    as ((ranked & Hrun & _ & _ & Hin) & _).
  exists ranked. split; [exact Hrun|].
  apply Hin. split; [|by vm_compute].
  exists [CStr "RegionA"; CStr "Alice"; CStr "PartyX"; CInt 100].
  split; [by left|by vm_compute].
Defined.

(** * Further properties *)

(** ** Grouping does not depend on the order of the rows *)

Lemma entries_Permutation idx vi rs rs' es :
  rs ≡ₚ rs' -> entries idx vi rs = Some es ->
  exists es', entries idx vi rs' = Some es' /\ es ≡ₚ es'.
Proof.
  intros Hp. revert es. induction Hp as [|r rs rs' Hp IH|r1 r2 rs|rs1 rs2 rs3 _ IH1 _ IH2];
    intros es; simpl.
  - intros [= <-]. by exists [].
  - destruct (row_entry idx vi r) as [e|]; [|done].
    destruct (entries idx vi rs) as [es0|]; [|done].
    intros [= <-]. destruct (IH es0 eq_refl) as (es' & -> & Hes).
    exists (e :: es'). split; [done|]. by constructor.
  - destruct (row_entry idx vi r1) as [e1|], (row_entry idx vi r2) as [e2|];
      try done; destruct (entries idx vi rs) as [es0|]; try done.
    intros [= <-]. exists (e1 :: e2 :: es0). split; [done|]. apply perm_swap.
  - intros Hes. destruct (IH1 es Hes) as (es2 & Hes2 & Hp2).
    destruct (IH2 es2 Hes2) as (es3 & Hes3 & Hp3).
    exists es3. split; [done|]. by etrans.
Qed.

Lemma entries_None_Permutation idx vi rs rs' :
  rs ≡ₚ rs' -> entries idx vi rs = None -> entries idx vi rs' = None.
Proof.
  intros Hp Hnone. destruct (entries idx vi rs') as [es'|] eqn:Hes'; [|done].
  symmetry in Hp.
  destruct (entries_Permutation idx vi rs' rs es' Hp Hes') as (es & Hes & _).
  congruence.
Qed.

Lemma label_lt_asym a b : label_lt a b -> label_lt b a -> False.
Proof.
  unfold label_lt. rewrite (label_compare_antisym b a). by intros ->.
Qed.

Lemma group_keys_Permutation_eq ks ks' :
  ks ≡ₚ ks' -> group_keys ks = group_keys ks'.
Proof.
  intros Hp.
  apply (StronglySorted_unique_strong label_lt);
    [|apply group_keys_sorted|apply group_keys_sorted|].
  - intros x1 x2 _ _ H12 H21. by destruct (label_lt_asym x1 x2).
  - apply NoDup_Permutation; [apply NoDup_group_keys|apply NoDup_group_keys|].
    intros k. by rewrite !elem_of_group_keys, Hp.
Qed.

Lemma aggregate_Permutation obs obs' :
  obs ≡ₚ obs' -> aggregate obs = aggregate obs'.
Proof.
  intros Hp. unfold aggregate.
  rewrite (group_keys_Permutation_eq (map fst obs) (map fst obs'))
    by (by apply fmap_Permutation).
  apply map_ext. intros k. f_equal. unfold group_total, group_values.
  apply sum64_Permutation, fmap_Permutation. by rewrite Hp.
Qed.

(** X1. Grouping, and with it every analysis, gives the same outcome on two
    frames that have the same columns and the same rows in a different
    order. *)
Theorem grouping_ignores_row_order df1 df2 by_ value k s1 s2 :
  columns df1 = columns df2 -> rows df1 ≡ₚ rows df2 ->
  Analyzer.data s1 = Some df1 -> Analyzer.data s2 = Some df2 ->
  groupby_sum df1 by_ value = groupby_sum df2 by_ value /\
  result (Analyzer.run k s1) = result (Analyzer.run k s2).
Proof.
  intros Hcols Hrows Hs1 Hs2.
  assert (forall by' v, groupby_sum df1 by' v = groupby_sum df2 by' v) as Hg.
  { intros by' v. unfold groupby_sum. rewrite <- Hcols.
    destruct (resolve by' (columns df1)) as [idx| |]; simpl; try done.
    destruct (column_index v (columns df1)) as [vi|]; [|done].
    destruct (entries idx vi (rows df1)) as [es|] eqn:Hes.
    - destruct (entries_Permutation idx vi _ _ es Hrows Hes) as (es' & -> & Hp).
      f_equal. apply aggregate_Permutation. unfold observed. by rewrite Hp.
    - by rewrite (entries_None_Permutation idx vi _ _ Hrows Hes). }
  split; [apply Hg|].
  rewrite analyzer_run_unfold. unfold Analyzer.analyze, Analyzer.validate_data.
  rewrite Hs1, Hs2.
  unfold has_required_columns, missing_columns_error, missing_columns.
  rewrite <- Hcols.
  destruct (forallb _ required_columns); [|done].
  rewrite (Hg (kind_by k) "votes").
  by destruct (groupby_sum df2 (kind_by k) "votes").
Qed.

Lemma grouping_ignores_row_order_witness :
  result (Analyzer.run CandidatePerformance
            (analyzer_with {| columns := election_columns;
                              rows := reverse (rows scenario_table) |}))
  = Returns [(["Alice"; "PartyX"], 130); (["Bob"; "PartyY"], 50)].
Proof.
  destruct (grouping_ignores_row_order
              {| columns := election_columns;
                 rows := reverse (rows scenario_table) |}
              scenario_table ["candidate"; "party"] "votes" CandidatePerformance
              (analyzer_with {| columns := election_columns;
                                rows := reverse (rows scenario_table) |})
              (analyzer_with scenario_table) eq_refl
              (reverse_Permutation _) eq_refl eq_refl) as [_ ->].
  by vm_compute.
Defined.

(** ** Rows with a missing key *)

Lemma resolve_Forall2 by_ cols idx :
  resolve by_ cols = Returns idx ->
  Forall2 (fun n i => column_index n cols = Some i) by_ idx.
Proof.
  revert idx. induction by_ as [|n by_ IH]; intros idx; simpl.
  - intros [= <-]. constructor.
  - destruct (column_index n cols) as [i|] eqn:Hi; [|done].
    destruct (resolve by_ cols) as [idx'| |]; simpl; try done.
    intros [= <-]. constructor; [done|]. by apply IH.
Qed.

Lemma row_key_missing df by_ idx row k :
  Forall2 (fun n i => column_index n (columns df) = Some i) by_ idx ->
  row_key idx row = Some k ->
  (k = None <-> key_missing df by_ row = true).
Proof.
  intros Hres. revert k. induction Hres as [|n i by_ idx Hi _ IH]; intros k; simpl.
  - intros [= <-]. done.
  - unfold field at 1. rewrite Hi.
    destruct (cell_at i row) as [z|m e|t|]; simpl; try done;
      destruct (row_key idx row) as [[l|]|]; try done; intros [= <-].
    + specialize (IH (Some l) eq_refl). split; [done|]. intros H.
      by apply IH in H.
    + by rewrite <- (IH None eq_refl).
    + done.
    + done.
Qed.

Lemma entries_dropna df by_ idx vi rs es :
  Forall2 (fun n i => column_index n (columns df) = Some i) by_ idx ->
  entries idx vi rs = Some es ->
  entries idx vi (filter (fun row => key_missing df by_ row = false) rs)
  = Some (filter (fun e => is_Some (fst e)) es).
Proof.
  intros Hres. revert es. induction rs as [|r rs IH]; intros es; simpl.
  - by intros [= <-].
  - destruct (row_entry idx vi r) as [[k v]|] eqn:Hr; [|done].
    destruct (entries idx vi rs) as [es0|]; [|done].
    intros [= <-]. rewrite !filter_cons. simpl.
    assert (row_key idx r = Some k) as Hk.
    { unfold row_entry in Hr. destruct (row_key idx r) as [k'|]; [|done].
      destruct (value_cell (cell_at vi r)); [|done]. by injection Hr as -> _. }
    pose proof (row_key_missing df by_ idx r k Hres Hk) as Hmiss.
    destruct k as [l|].
    + destruct (key_missing df by_ r) eqn:Hm.
      { by pose proof (proj2 Hmiss eq_refl). }
      rewrite decide_True by done. rewrite decide_True by by eexists.
      simpl. by rewrite Hr, (IH es0 eq_refl).
    + pose proof (proj1 Hmiss eq_refl) as Hm.
      rewrite decide_False by (rewrite Hm; done).
      rewrite decide_False by (by intros [? ?]).
      by apply IH.
Qed.

Lemma observed_filter es :
  observed (filter (fun e => is_Some (fst e)) es) = observed es.
Proof.
  unfold observed. induction es as [|[[l|] v] es IH]; [done| |].
  - rewrite filter_cons_True by by eexists. cbn. by f_equal.
  - rewrite filter_cons_False by (by intros [? ?]). cbn. exact IH.
Qed.

Lemma map_snd_observed es :
  map snd (observed es) = map snd (filter (fun e => is_Some (fst e)) es).
Proof.
  unfold observed. induction es as [|[[l|] v] es IH]; [done| |].
  - rewrite filter_cons_True by by eexists. cbn. by f_equal.
  - rewrite filter_cons_False by (by intros [? ?]). cbn. exact IH.
Qed.

Lemma entries_values idx vi rs es :
  entries idx vi rs = Some es ->
  map snd es = map (fun row => int_of (cell_at vi row)) rs.
Proof.
  revert es. induction rs as [|r rs IH]; intros es; simpl.
  - by intros [= <-].
  - destruct (row_entry idx vi r) as [[k v]|] eqn:Hr; [|done].
    destruct (entries idx vi rs) as [es0|]; [|done].
    intros [= <-]. simpl. rewrite (IH es0 eq_refl). f_equal.
    unfold row_entry in Hr. destruct (row_key idx r); [|done].
    unfold value_cell in Hr. destruct (cell_at vi r) as [z| | |]; try done.
    simpl. destruct (in_int64 z); [|done]. by injection Hr as _ ->.
Qed.

Lemma groupby_sum_Returns_index df by_ value grouped :
  groupby_sum df by_ value = Returns grouped ->
  exists idx vi es,
    resolve by_ (columns df) = Returns idx /\
    column_index value (columns df) = Some vi /\
    entries idx vi (rows df) = Some es /\
    grouped = aggregate (observed es).
Proof.
  unfold groupby_sum.
  destruct (resolve by_ (columns df)) as [idx| |]; simpl; try done.
  destruct (column_index value (columns df)) as [vi|]; [|done].
  destruct (entries idx vi (rows df)) as [es|] eqn:Hes; [|done].
  intros [= <-]. by exists idx, vi, es.
Qed.

(** X2. Rows in which a key column is missing take no part in the
    grouping: the grouped series of a frame is that of the frame without
    those rows, and its totals add up, in 64-bit arithmetic, to the values
    of the rows that remain. *)
Theorem missing_keys_are_dropped df by_ value grouped :
  groupby_sum df by_ value = Returns grouped ->
  groupby_sum (dropna df by_) by_ value = Returns grouped /\
  sum64 (map snd grouped)
  = sum64 (map (fun row => int_of (field df value row)) (rows (dropna df by_))).
Proof.
  intros Hg.
  destruct (groupby_sum_Returns_index _ _ _ _ Hg)
    as (idx & vi & es & Hidx & Hvi & Hes & ->).
  pose proof (resolve_Forall2 _ _ _ Hidx) as Hres.
  pose proof (entries_dropna df by_ idx vi _ es Hres Hes) as Hdrop.
  split.
  - unfold groupby_sum, dropna. simpl. rewrite Hidx. simpl. rewrite Hvi, Hdrop.
    by rewrite observed_filter.
  - rewrite aggregate_conservation, map_snd_observed.
    rewrite (entries_values idx vi _ _ Hdrop). f_equal.
    unfold dropna. simpl. apply map_ext. intros row.
    unfold field. by rewrite Hvi.
Qed.

Lemma missing_keys_are_dropped_witness :
  groupby_sum (dropna gappy_table ["region"]) ["region"] "votes"
    = Returns [(["RegionA"], 150); (["RegionB"], 30)] /\
  sum64 [150; 30] = 180.
Proof.
  destruct (missing_keys_are_dropped gappy_table ["region"] "votes"
              [(["RegionA"], 150); (["RegionB"], 30)] eq_refl) as [H1 H2].
  split; [exact H1|]. by vm_compute.
Defined.

(** ** The shape of a grouped series *)

Lemma resolve_length by_ cols idx :
  resolve by_ cols = Returns idx -> length idx = length by_.
Proof.
  intros Hres. symmetry.
  by apply (Forall2_length _ _ _ (resolve_Forall2 _ _ _ Hres)).
Qed.

Lemma row_key_length idx row l :
  row_key idx row = Some (Some l) -> length l = length idx.
Proof.
  revert l. induction idx as [|i idx IH]; intros l; simpl.
  - by intros [= <-].
  - destruct (key_cell (cell_at i row)) as [[t|]|]; try done;
      destruct (row_key idx row) as [[l'|]|]; try done.
    intros [= <-]. simpl. f_equal. by apply IH.
Qed.

Lemma groupby_sum_entry_shape df by_ value grouped e :
  groupby_sum df by_ value = Returns grouped -> e ∈ grouped ->
  length (fst e) = length by_ /\ int64_min <= snd e <= int64_max.
Proof.
  intros Hg Hin.
  destruct (groupby_sum_Returns_index _ _ _ _ Hg)
    as (idx & vi & es & Hidx & Hvi & Hes & ->).
  destruct e as [k t]. apply elem_of_aggregate in Hin as [Hk ->]. simpl. split.
  - destruct (observed_label_has_row idx vi _ es k Hes Hk) as (row & _ & Hrow).
    by rewrite (row_key_length _ _ _ Hrow), (resolve_length _ _ _ Hidx).
  - unfold group_total. rewrite sum64_zsum. apply wrap64_range.
Qed.

Lemma groupby_sum_sorted df by_ value grouped :
  groupby_sum df by_ value = Returns grouped ->
  StronglySorted label_lt (map fst grouped).
Proof.
  intros Hg.
  destruct (groupby_sum_Returns _ _ _ _ Hg) as (idx & vi & es & _ & _ & ->).
  rewrite aggregate_keys. apply group_keys_sorted.
Qed.

(** X3. A grouped series lists its groups in strictly ascending order of
    their labels; every label has one component per key column, and every
    total is a 64-bit value. *)
Theorem grouped_series_shape df by_ value grouped :
  groupby_sum df by_ value = Returns grouped ->
  StronglySorted label_lt (map fst grouped) /\
  Forall (fun e => length (fst e) = length by_ /\
                   int64_min <= snd e <= int64_max) grouped.
Proof.
  intros Hg. split.
  - by apply (groupby_sum_sorted df by_ value).
  - rewrite Forall_forall. intros e He.
    by apply (groupby_sum_entry_shape df by_ value grouped).
Qed.

Lemma grouped_series_shape_witness :
  StronglySorted label_lt
    (map fst [(["Alice"; "PartyX"], 130); (["Bob"; "PartyY"], 50)]).
Proof.
  exact (proj1 (grouped_series_shape scenario_table ["candidate"; "party"]
                  "votes" _ eq_refl)).
Defined.

(** ** Ranking a ranked series *)

Section SortedInput.
Context {A : Type} (leb : A -> A -> bool).


End SortedInput.



(** X5. [head(n)] of a ranked series keeps the [n] largest totals: it has
    [min n (len s)] entries, it is the whole series when that has at most
    [n] entries, and no entry it leaves out has a larger total than an
    entry it keeps. *)
Theorem head_of_ranked_keeps_largest n s :
  length (head n (sort_values s)) = Nat.min n (length s) /\
  ((length s <= n)%nat -> head n (sort_values s) = sort_values s) /\
  (forall kept left_out,
     kept ∈ head n (sort_values s) -> left_out ∈ drop n (sort_values s) ->
     snd left_out <= snd kept).
Proof.
  unfold head. split; [|split].
  - by rewrite length_take, length_sort_values.
  - intros Hlen. apply take_ge. by rewrite length_sort_values.
  - intros kept left_out Hkept Hleft.
    pose proof (sort_values_sorted s) as Hsorted.
    rewrite <- (take_drop n (sort_values s)), map_app in Hsorted.
    apply Z.ge_le.
    apply (StronglySorted_app_1_elem_of _ _ _ _ _ Hsorted);
      apply list_elem_of_fmap; by eexists.
Qed.

Lemma head_of_ranked_keeps_largest_witness :
  head 5 (sort_values [(["PartyY"], 50); (["PartyX"], 130)])
  = sort_values [(["PartyY"], 50); (["PartyX"], 130)].
Proof.
  apply (head_of_ranked_keeps_largest 5 [(["PartyY"], 50); (["PartyX"], 130)]).
  simpl. lia.
Defined.

(** ** Errors of the analyses *)











(** ** Loading, case by case *)

(** X8. [load_data] of the command-line analyzer never raises. When it
    returns [False] the analyzer is exactly as it was and one error line
    has been printed: [File not found] when the path does not exist,
    whatever its extension, [Unsupported file format] when it exists and
    ends in neither [.csv] nor [.json]. When it returns [True] only the
    table has changed, to the frame the reader for the extension returned,
    [.csv] taking precedence. *)
Theorem analyzer_load_data_outcomes env path s :
  (exists b, result (Analyzer.load_data env path s) = Returns b) /\
  (result (Analyzer.load_data env path s) = Returns false ->
     state (Analyzer.load_data env path s) = s /\
     exists e, effects (Analyzer.load_data env path s)
               = [Print ("Error loading data: " +:+ str_exc e)]) /\
  (path_exists env path = false ->
     Analyzer.load_data env path s =
     MkStep (Returns false) s
       [Print ("Error loading data: File not found: " +:+ path)]) /\
  (path_exists env path = true -> endswith path ".csv" = false ->
   endswith path ".json" = false ->
     Analyzer.load_data env path s =
     MkStep (Returns false) s
       [Print ("Error loading data: "
               +:+ "Unsupported file format. Please use CSV or JSON.")]) /\
  (result (Analyzer.load_data env path s) = Returns true ->
     exists df,
       state (Analyzer.load_data env path s) =
       {| Analyzer.data := Some df;
          Analyzer.analysis_results := Analyzer.analysis_results s;
          Analyzer.visualizations := Analyzer.visualizations s |} /\
       (if endswith path ".csv" then read_csv env path = ReadOk df
        else read_json env path = ReadOk df)).
Proof.
  unfold Analyzer.load_data.
  destruct (path_exists env path); simpl.
  - destruct (endswith path ".csv").
    + destruct (read_csv env path) as [df|e]; simpl.
      * split; [by eexists|]. split; [done|]. split; [done|]. split; [done|].
        intros _. by exists df.
      * split; [by eexists|]. split; [intros _; split; [done|by exists e]|].
        split; [done|]. split; done.
    + destruct (endswith path ".json").
      * destruct (read_json env path) as [df|e]; simpl.
        -- split; [by eexists|]. split; [done|]. split; [done|].
           split; [done|]. intros _. by exists df.
        -- split; [by eexists|]. split; [intros _; split; [done|by exists e]|].
           split; [done|]. split; done.
      * split; [by eexists|].
        split; [intros _; split; [done|by eexists (ValueError _)]|].
        split; [done|]. split; done.
  - split; [by eexists|].
    split; [intros _; split; [done|by eexists (FileNotFoundError _)]|].
    split; [done|]. split; done.
Qed.

Lemma analyzer_load_data_outcomes_witness :
  Analyzer.load_data sample_env "missing.csv" Analyzer.init
  = MkStep (Returns false) Analyzer.init
      [Print "Error loading data: File not found: missing.csv"].
Proof.
  destruct (analyzer_load_data_outcomes sample_env "missing.csv" Analyzer.init)
    as (_ & _ & H & _).
  exact (H eq_refl).
Defined.

(** X9. [load_data] of the desktop shell assigns the frame it has read
    before it checks the columns. When the dialog is dismissed nothing
    happens. When the file cannot be read the error dialog is shown and the
    state is as it was. When the file is read but lacks a required column,
    the error dialog names the missing columns and the frame just read is
    nevertheless the loaded table, the stored results being untouched. *)
Theorem app_load_data_outcomes env file_type path a :
  (path = EmptyString ->
     App.load_data env file_type path a = MkStep (Returns tt) a []) /\
  (forall e, path <> EmptyString ->
     (file_type = "csv" /\ read_csv env path = ReadFails e) \/
     (file_type = "json" /\ read_json env path = ReadFails e) ->
     App.load_data env file_type path a =
     MkStep (Returns tt) a
       [ShowError "Error" ("Failed to load file:" +:+ nl +:+ str_exc e);
        SetStatus "Error loading file"]) /\
  (forall df, path <> EmptyString ->
     (file_type = "csv" /\ read_csv env path = ReadOk df) \/
     (file_type = "json" /\ read_json env path = ReadOk df) ->
     state (App.load_data env file_type path a) =
     {| App.data := Some df; App.analysis_results := App.analysis_results a |} /\
     (has_required_columns df = false ->
      effects (App.load_data env file_type path a) =
      [ShowError "Error"
         ("Failed to load file:" +:+ nl +:+ "Missing required columns: "
          +:+ repr_list (missing_columns df));
       SetStatus "Error loading file"])).
Proof.
  unfold App.load_data. split; [|split].
  - by intros ->.
  - intros e Hpath Hread.
    destruct (String.eqb_spec path EmptyString) as [?|_]; [done|].
    destruct Hread as [[-> ->]|[-> ->]]; done.
  - intros df Hpath Hread.
    destruct (String.eqb_spec path EmptyString) as [?|_]; [done|].
    destruct Hread as [[-> ->]|[-> ->]]; simpl;
      by destruct (has_required_columns df).
Qed.

Lemma app_load_data_outcomes_witness :
  App.data (state (App.load_data
    {| to_string := plain_to_string; path_exists := fun _ => true;
       read_csv := fun _ => ReadOk partyless_table;
       read_json := fun _ => ReadFails (OtherError "unreadable");
       basename := fun p => p |} "csv" "partyless.csv" App.init))
  = Some partyless_table.
Proof.
  destruct (app_load_data_outcomes
    {| to_string := plain_to_string; path_exists := fun _ => true;
       read_csv := fun _ => ReadOk partyless_table;
       read_json := fun _ => ReadFails (OtherError "unreadable");
       basename := fun p => p |} "csv" "partyless.csv" App.init)
    as (_ & _ & H).
  destruct (H partyless_table ltac:(done) ltac:(by left)) as [-> _]. done.
Defined.

(** ** Analyses compose *)

Lemma analyzer_run_state k s :
  state (Analyzer.run k s) =
  match Analyzer.data s with
  | Some df =>
      if has_required_columns df then
        match groupby_sum df (kind_by k) "votes" with
        | Returns grouped =>
            {| Analyzer.data := Some df;
               Analyzer.analysis_results :=
                 <[kind_name k := sort_values grouped]>
                   (Analyzer.analysis_results s);
               Analyzer.visualizations := Analyzer.visualizations s |}
        | _ => s
        end
      else s
  | None => s
  end.
Proof.
  rewrite analyzer_run_unfold. unfold Analyzer.analyze, Analyzer.validate_data.
  destruct (Analyzer.data s) as [df|] eqn:Hdata; [|done].
  destruct (has_required_columns df); [|done].
  destruct (groupby_sum df (kind_by k) "votes"); simpl; by rewrite ?Hdata.
Qed.

Lemma app_run_state env k a :
  state (App.run env k a) =
  match App.data a with
  | Some df =>
      match groupby_sum df (kind_by k) "votes" with
      | Returns grouped =>
          {| App.data := Some df;
             App.analysis_results :=
               <[kind_name k := sort_values grouped]> (App.analysis_results a) |}
      | _ => a
      end
  | None => a
  end.
Proof.
  destruct k; simpl;
    unfold App.analyze_turnout, App.analyze_party_performance,
      App.analyze_candidate_performance, App.analyze, App.validate_data;
    (destruct (App.data a) as [df|] eqn:Hdata; simpl; [|done]);
    match goal with
    | |- context [groupby_sum df ?b ?v] => destruct (groupby_sum df b v)
    end; simpl; by rewrite ?Hdata.
Qed.

Lemma kind_name_inj k1 k2 : kind_name k1 = kind_name k2 -> k1 = k2.
Proof. by destruct k1, k2. Qed.

(** X10. Running an analysis twice in a row leaves the same state as
    running it once, in the analyzer and in the desktop shell. *)
Theorem analysis_is_idempotent env k s a :
  state (Analyzer.run k (state (Analyzer.run k s))) = state (Analyzer.run k s) /\
  state (App.run env k (state (App.run env k a))) = state (App.run env k a).
Proof.
  split.
  - rewrite (analyzer_run_state k (state _)), (analyzer_run_state k s).
    destruct (Analyzer.data s) as [df|] eqn:Hdata; [|by rewrite Hdata].
    destruct (has_required_columns df) eqn:Hreq; [|by rewrite Hdata, Hreq].
    destruct (groupby_sum df (kind_by k) "votes") as [g|e|] eqn:Hg; simpl;
      rewrite ?Hdata, ?Hreq, ?Hg; try done.
    by rewrite insert_insert_eq.
  - rewrite (app_run_state env k (state _)), (app_run_state env k a).
    destruct (App.data a) as [df|] eqn:Hdata; [|by rewrite Hdata].
    destruct (groupby_sum df (kind_by k) "votes") as [g|e|] eqn:Hg; simpl;
      rewrite ?Hdata, ?Hg; try done.
    by rewrite insert_insert_eq.
Qed.

(** X11. Analyses of two different kinds can be run in either order: the
    state afterwards is the same, in the analyzer and in the desktop
    shell. *)
Theorem analyses_commute env k1 k2 s a :
  k1 <> k2 ->
  state (Analyzer.run k1 (state (Analyzer.run k2 s)))
    = state (Analyzer.run k2 (state (Analyzer.run k1 s))) /\
  state (App.run env k1 (state (App.run env k2 a)))
    = state (App.run env k2 (state (App.run env k1 a))).
Proof.
  intros Hne.
  assert (kind_name k1 <> kind_name k2) as Hname
    by (intros H; by apply Hne, kind_name_inj).
  split.
  - rewrite (analyzer_run_state k1 (state _)), (analyzer_run_state k2 (state _)),
      (analyzer_run_state k1 s), (analyzer_run_state k2 s).
    destruct (Analyzer.data s) as [df|] eqn:Hdata; [|by rewrite Hdata].
    destruct (has_required_columns df) eqn:Hreq; [|by rewrite Hdata, Hreq].
    destruct (groupby_sum df (kind_by k1) "votes") as [g1|e1|] eqn:Hg1,
      (groupby_sum df (kind_by k2) "votes") as [g2|e2|] eqn:Hg2; simpl;
      rewrite ?Hdata, ?Hreq, ?Hg1, ?Hg2; try done.
    f_equal. by apply insert_insert_ne.
  - rewrite (app_run_state env k1 (state _)), (app_run_state env k2 (state _)),
      (app_run_state env k1 a), (app_run_state env k2 a).
    destruct (App.data a) as [df|] eqn:Hdata; [|by rewrite Hdata].
    destruct (groupby_sum df (kind_by k1) "votes") as [g1|e1|] eqn:Hg1,
      (groupby_sum df (kind_by k2) "votes") as [g2|e2|] eqn:Hg2; simpl;
      rewrite ?Hdata, ?Hg1, ?Hg2; try done.
    f_equal. by apply insert_insert_ne.
Qed.

Lemma analyses_commute_witness :
  state (Analyzer.run TurnoutByRegion
           (state (Analyzer.run PartyPerformance (analyzer_with scenario_table))))
  = state (Analyzer.run PartyPerformance
             (state (Analyzer.run TurnoutByRegion (analyzer_with scenario_table)))).
Proof.
  apply (analyses_commute sample_env TurnoutByRegion PartyPerformance
           (analyzer_with scenario_table) App.init).
  discriminate.
Defined.

(** ** Charts of the command-line analyzer *)




(** ** What every session keeps *)

Lemma ranked_sort_values df k grouped :
  groupby_sum df (kind_by k) "votes" = Returns grouped ->
  ranked k (sort_values grouped).
Proof.
  intros Hg. pose proof (sort_values_Permutation grouped) as Hperm.
  split; [apply sort_values_sorted|]. split.
  - rewrite Hperm.
    destruct (groupby_sum_Returns _ _ _ _ Hg) as (idx & vi & es & _ & _ & ->).
    apply NoDup_aggregate.
  - rewrite Forall_forall. intros e He. rewrite Hperm in He.
    by apply (groupby_sum_entry_shape df (kind_by k) "votes" grouped).
Qed.

Lemma well_stored_insert results df k grouped :
  well_stored results ->
  groupby_sum df (kind_by k) "votes" = Returns grouped ->
  well_stored (<[kind_name k := sort_values grouped]> results).
Proof.
  intros Hstored Hg name series.
  destruct (decide (kind_name k = name)) as [<-|Hne].
  - rewrite lookup_insert_eq. intros [= <-]. exists k.
    split; [done|]. by apply (ranked_sort_values df).
  - rewrite lookup_insert_ne by done. apply Hstored.
Qed.

Lemma analyzer_load_data_cases env path s :
  state (Analyzer.load_data env path s) = s \/
  exists df, state (Analyzer.load_data env path s) =
    {| Analyzer.data := Some df;
       Analyzer.analysis_results := Analyzer.analysis_results s;
       Analyzer.visualizations := Analyzer.visualizations s |}.
Proof.
  unfold Analyzer.load_data.
  destruct (path_exists env path); simpl; [|by left].
  destruct (endswith path ".csv").
  { destruct (read_csv env path) as [df|e]; simpl; [right; by exists df|by left]. }
  destruct (endswith path ".json"); [|by left].
  destruct (read_json env path) as [df|e]; simpl; [right; by exists df|by left].
Qed.

Lemma app_load_data_cases env file_type path a :
  state (App.load_data env file_type path a) = a \/
  exists df, state (App.load_data env file_type path a) =
    {| App.data := Some df; App.analysis_results := App.analysis_results a |}.
Proof.
  unfold App.load_data.
  destruct (String.eqb path EmptyString); [by left|].
  destruct (String.eqb file_type "csv").
  { destruct (read_csv env path) as [df|e]; simpl; [|by left].
    right. exists df. by destruct (has_required_columns df). }
  destruct (String.eqb file_type "json").
  { destruct (read_json env path) as [df|e]; simpl; [|by left].
    right. exists df. by destruct (has_required_columns df). }
  left. destruct (App.data a) as [df|]; [|done].
  by destruct (has_required_columns df).
Qed.

Lemma analyzer_invariant_init : analyzer_invariant Analyzer.init.
Proof.
  split; [|split; [done|split; [|done]]].
  - intros name series. simpl. by rewrite lookup_empty.
  - intros name file. simpl. by rewrite lookup_empty.
Qed.

Lemma analyzer_invariant_after c s :
  analyzer_invariant s -> analyzer_invariant (analyzer_after c s).
Proof.
  intros Hinv. pose proof Hinv as (Hstored & Hdata & Hlatest & Hviz).
  destruct c as [env path|k|stamp|env now output_file]; simpl.
  - destruct (analyzer_load_data_cases env path s) as [->|[df ->]]; [done|].
    split; [done|]. split; [intros _; by eexists|]. by split.
  - rewrite analyzer_run_state.
    destruct (Analyzer.data s) as [df|] eqn:Hdf; [|done].
    destruct (has_required_columns df); [|done].
    destruct (groupby_sum df (kind_by k) "votes") as [g|e|] eqn:Hg; try done.
    split; [by apply (well_stored_insert _ df)|]. simpl.
    split; [intros _; by eexists|]. split; [done|].
    intros _. apply insert_non_empty.
  - unfold Analyzer.generate_visualizations.
    case_bool_decide as Hres; simpl; [done|].
    split; [done|]. split; [done|]. split; [|done].
    intros name file. simpl. destruct (decide ("latest" = name)) as [<-|Hne].
    + rewrite lookup_insert_eq. intros [= <-]. split; [done|]. by exists stamp.
    + rewrite lookup_insert_ne by done. apply Hlatest.
  - unfold Analyzer.generate_report. by case_bool_decide.
Qed.

Lemma app_invariant_after c a : app_invariant a -> app_invariant (app_after c a).
Proof.
  intros Hinv. pose proof Hinv as (Hstored & Hdata).
  destruct c as [env file_type path|env k|env now path]; simpl.
  - destruct (app_load_data_cases env file_type path a) as [->|[df ->]]; [done|].
    split; [done|]. intros _. by eexists.
  - rewrite app_run_state.
    destruct (App.data a) as [df|] eqn:Hdf; [|done].
    destruct (groupby_sum df (kind_by k) "votes") as [g|e|] eqn:Hg; try done.
    split; [by apply (well_stored_insert _ df)|]. simpl. intros _. by eexists.
  - unfold App.generate_report. case_bool_decide; [done|].
    by destruct (String.eqb path EmptyString).
Qed.

Lemma foldl_invariant {S C} (inv : S -> Prop) (after : C -> S -> S) calls s :
  (forall c s, inv s -> inv (after c s)) -> inv s ->
  inv (foldl (fun s c => after c s) s calls).
Proof.
  intros Hstep. revert s. induction calls as [|c calls IH]; intros s Hs; simpl;
    [done|]. apply IH. by apply Hstep.
Qed.


Lemma app_invariant_init : app_invariant App.init.
Proof.
  split; [|done]. intros name series. simpl. by rewrite lookup_empty.
Qed.


Lemma available_blocks_stored env heading results :
  well_stored results -> results <> ∅ ->
  exists k series,
    results !! kind_name k = Some series /\
    render env heading k series ∈ available_blocks env heading results.
Proof.
  intros Hstored Hne.
  destruct (map_choose results Hne) as (name & series & Hlook).
  destruct (Hstored name series Hlook) as (k & -> & _).
  exists k, series. split; [done|].
  unfold available_blocks. apply list_elem_of_omap. exists k.
  split; [destruct k; unfold report_order; set_solver|].
  by rewrite Hlook.
Qed.

(** X15. A report is never just its header: in every session in which
    some result is stored, that is whenever report generation goes ahead,
    the report of either class holds the block of at least one kind. *)
Theorem reports_hold_a_block env acalls pcalls :
  (Analyzer.analysis_results (analyzer_session acalls) <> ∅ ->
     exists k series,
       Analyzer.analysis_results (analyzer_session acalls) !! kind_name k
         = Some series /\
       render env analyzer_heading k series
         ∈ available_blocks env analyzer_heading
             (Analyzer.analysis_results (analyzer_session acalls))) /\
  (App.analysis_results (app_session pcalls) <> ∅ ->
     exists k series,
       App.analysis_results (app_session pcalls) !! kind_name k = Some series /\
       render env app_heading k series
         ∈ available_blocks env app_heading
             (App.analysis_results (app_session pcalls))).
Proof.
  split; intros Hne; apply available_blocks_stored; try done.
  - assert (analyzer_invariant (analyzer_session acalls)) as [H _]; [|done].
    unfold analyzer_session. apply foldl_invariant;
      [apply analyzer_invariant_after|apply analyzer_invariant_init].
  - assert (app_invariant (app_session pcalls)) as [H _]; [|done].
    unfold app_session. apply foldl_invariant;
      [apply app_invariant_after|apply app_invariant_init].
Qed.

Lemma reports_hold_a_block_witness :
  exists k series,
    Analyzer.analysis_results
      (analyzer_session [ALoad sample_env "first.csv"; AAnalyze PartyPerformance])
      !! kind_name k = Some series /\
    render sample_env analyzer_heading k series
      ∈ available_blocks sample_env analyzer_heading
          (Analyzer.analysis_results
             (analyzer_session
                [ALoad sample_env "first.csv"; AAnalyze PartyPerformance])).
Proof.
  apply (reports_hold_a_block sample_env
           [ALoad sample_env "first.csv"; AAnalyze PartyPerformance] []).
  by vm_compute.
Defined.

(** ** The menu loop *)

Lemma after_attempt {A} (r : Step Analyzer.State A) then_ :
  after (attempt r then_) = state r /\ next (attempt r then_) <> Exit.
Proof. unfold attempt. by destruct (result r). Qed.





Lemma ended_continue_with t rest :
  (next t = Exit /\ ended (continue_with t rest) = Returns tt /\
   console (continue_with t rest) = turn_opening ++ shown t) \/
  (next t = Continue /\
   ended (continue_with t rest) = ended (rest (after t)) /\
   console (continue_with t rest)
     = turn_opening ++ shown t ++ console (rest (after t))) \/
  (next t = OutsideModel /\ ended (continue_with t rest) = Unmodelled).
Proof. unfold continue_with. destruct (next t); simpl; auto. Qed.

Lemma choose_exit env con n choice s :
  next (choose env con n choice s) = Exit ->
  choice = "7" /\ shown (choose env con n choice s) = [goodbye].
Proof.
  unfold choose.
  repeat match goal with
  | |- context [if String.eqb choice ?c then attempt ?r ?k else _] =>
      destruct (String.eqb choice c);
      [intros H; by destruct (proj2 (after_attempt r k))|]
  end.
  by destruct (String.eqb_spec choice "7").
Qed.

Lemma last_console_app (l1 l2 l3 : list ConsoleEvent) x :
  last l3 = Some x -> last (l1 ++ l2 ++ l3) = Some x.
Proof. intros H. by rewrite !last_app, H. Qed.

Lemma menu_loop_ending env con m :
  forall stdin n s, (length stdin <= m)%nat ->
  (ended (menu_loop env con n stdin s) = Returns tt ->
     "7" ∈ stdin /\ last (console (menu_loop env con n stdin s)) = Some goodbye) /\
  (forall e, ended (menu_loop env con n stdin s) = Raises e -> e = eof_error).
Proof.
  induction m as [|m IH]; intros stdin n s Hlen.
  { destruct stdin; [|simpl in Hlen; lia]. simpl. split; [done|].
    by intros e [= <-]. }
  destruct stdin as [|choice rest]; [simpl; split; [done|by intros e [= <-]]|].
  simpl in Hlen |- *. destruct (String.eqb choice "1").
  - destruct rest as [|path rest']; [by split; [|intros e [= <-]]|].
    assert (next (load_turn env path s) <> Exit) as Hnext by apply after_attempt.
    destruct (IH rest' (S n) (after (load_turn env path s))) as [IH1 IH2];
      [simpl in Hlen; lia|].
    destruct (ended_continue_with (load_turn env path s)
                (menu_loop env con (S n) rest'))
      as [(Hx & _)|[(_ & -> & ->)|(_ & ->)]]; [done| |done].
    split; [|done]. intros Hend. destruct (IH1 Hend) as [Hin Hlast].
    split; [by do 2 right|]. by apply last_console_app.
  - destruct (IH rest (S n) (after (choose env con n choice s))) as [IH1 IH2];
      [lia|].
    destruct (ended_continue_with (choose env con n choice s)
                (menu_loop env con (S n) rest))
      as [(Hx & -> & ->)|[(_ & -> & ->)|(_ & ->)]]; [| |done].
    + destruct (choose_exit env con n choice s Hx) as [-> ->].
      split; [|done]. intros _. split; [by left|].
      by rewrite last_snoc.
    + split; [|done]. intros Hend. destruct (IH1 Hend) as [Hin Hlast].
      split; [by right|]. by apply last_console_app.
Qed.

(** X17. [main] returns only through the menu's exit: when it returns, the
    line [7] was typed and the last thing on the console is the goodbye
    line. The only exception [main] ever ends with is the end of input:
    no error of an analyzer method escapes the loop. *)
Theorem main_ends_on_exit_or_end_of_input env con stdin :
  (ended (main env con stdin) = Returns tt ->
     "7" ∈ stdin /\ last (console (main env con stdin)) = Some goodbye) /\
  (forall e, ended (main env con stdin) = Raises e -> e = eof_error).
Proof.
  destruct (menu_loop_ending env con (length stdin) stdin 0%nat Analyzer.init)
    as [Hexit Heof]; [lia|].
  unfold main. simpl. split; [|done].
  intros Hend. destruct (Hexit Hend) as [Hin Hlast]. split; [done|].
  rewrite !last_cons, Hlast. done.
Qed.

Lemma main_ends_on_exit_or_end_of_input_witness :
  "7" ∈ ["2"; "1"; "first.csv"; "4"; "7"; "2"] /\
  last (console (main sample_env sample_console
                   ["2"; "1"; "first.csv"; "4"; "7"; "2"])) = Some goodbye.
Proof.
  apply (main_ends_on_exit_or_end_of_input sample_env sample_console
           ["2"; "1"; "first.csv"; "4"; "7"; "2"]).
  by vm_compute.
Defined.

(** X18. The menu reports a missing prerequisite and goes on: with no
    table loaded the choices 2, 3 and 4 print the no-data error, with no
    stored result the choices 5 and 6 print the no-results error, and a
    line other than 1 to 7 prints the invalid-choice notice; in each case
    the analyzer is as it was and the loop continues. *)
Theorem menu_reports_and_continues env con n choice s :
  (choice ∈ ["2"; "3"; "4"] -> Analyzer.data s = None ->
     choose env con n choice s =
     MkTurn Continue s
       [Did (Print "Error: No data loaded. Please load data first.")]) /\
  (choice ∈ ["5"; "6"] -> Analyzer.analysis_results s = ∅ ->
     choose env con n choice s =
     MkTurn Continue s
       [Did (Print
          "Error: No analysis results available. Please run analysis first.")]) /\
  (choice ∉ ["1"; "2"; "3"; "4"; "5"; "6"; "7"] ->
     choose env con n choice s =
     MkTurn Continue s
       [Did (Print "Invalid choice. Please enter a number between 1 and 7.")]).
Proof.
  split; [|split].
  - intros Hin Hdata. unfold choose, attempt.
    rewrite !elem_of_cons, elem_of_nil in Hin.
    destruct Hin as [->|[->|[->|[]]]]; simpl;
      unfold Analyzer.analyze_turnout, Analyzer.analyze_party_performance,
        Analyzer.analyze_candidate_performance, Analyzer.analyze;
      by rewrite Hdata.
  - intros Hin Hres. unfold choose, attempt.
    rewrite !elem_of_cons, elem_of_nil in Hin.
    destruct Hin as [->|[->|[]]]; simpl;
      unfold Analyzer.generate_visualizations, Analyzer.generate_report;
      rewrite bool_decide_eq_true_2 by done; done.
  - intros Hout. unfold choose. rewrite !not_elem_of_cons in Hout.
    destruct Hout as (_ & H2 & H3 & H4 & H5 & H6 & H7 & _).
    by repeat match goal with
    | |- context [String.eqb choice ?c] =>
        destruct (String.eqb_spec choice c); [done|]
    end.
Qed.

Lemma menu_reports_and_continues_witness :
  choose sample_env sample_console 0 "3" Analyzer.init
  = MkTurn Continue Analyzer.init
      [Did (Print "Error: No data loaded. Please load data first.")].
Proof.
  destruct (menu_reports_and_continues sample_env sample_console 0 "3"
              Analyzer.init) as (H & _).
  apply H; [|done]. by apply (bool_decide_unpack _).
Defined.

(** ** The chart views of the desktop shell *)

Lemma charts_keep_session tk stamp viz_type s :
  Charts.session (fst (Charts.generate_visualizations tk stamp s))
    = Charts.session s /\
  Charts.session (fst (Charts.show_single_viz tk viz_type s))
    = Charts.session s /\
  Charts.session (fst (Charts.show_multi_viz tk stamp s)) = Charts.session s.
Proof.
  assert (Charts.session (fst (Charts.generate_visualizations tk stamp s))
          = Charts.session s) as Hgen.
  { unfold Charts.generate_visualizations. case_bool_decide; [done|].
    by destruct (Charts.clear_raises tk), (Charts.draw_raises tk). }
  split; [done|]. split.
  - unfold Charts.show_single_viz. case_bool_decide; [done|].
    by destruct (Charts.clear_raises tk), (Charts.draw_raises tk).
  - unfold Charts.show_multi_viz. by destruct (Charts.current_single_viz s).
Qed.

(** X19. [show_multi_viz] does nothing unless a single chart is showing.
    After [show_single_viz], when results are stored and clearing the old
    chart does not raise, the view is marked as showing, also when the
    drawing fails; [show_multi_viz] then does what
    [generate_visualizations] does, after which no single chart is marked
    and a further [show_multi_viz] does nothing. None of the three methods
    changes the table or the stored results. *)
Theorem multi_view_returns_from_single_view tk stamp viz_type s :
  (Charts.current_single_viz s = None ->
     Charts.show_multi_viz tk stamp s = (s, [])) /\
  (App.analysis_results (Charts.session s) <> ∅ ->
   Charts.clear_raises tk = None ->
     Charts.current_single_viz (fst (Charts.show_single_viz tk viz_type s))
       = Some viz_type /\
     snd (Charts.show_multi_viz tk stamp
            (fst (Charts.show_single_viz tk viz_type s)))
       = snd (Charts.generate_visualizations tk stamp s) /\
     Charts.current_single_viz
       (fst (Charts.show_multi_viz tk stamp
               (fst (Charts.show_single_viz tk viz_type s)))) = None /\
     Charts.show_multi_viz tk stamp
       (fst (Charts.show_multi_viz tk stamp
               (fst (Charts.show_single_viz tk viz_type s))))
     = (fst (Charts.show_multi_viz tk stamp
               (fst (Charts.show_single_viz tk viz_type s))), [])) /\
  (Charts.session (fst (Charts.generate_visualizations tk stamp s))
     = Charts.session s /\
   Charts.session (fst (Charts.show_single_viz tk viz_type s))
     = Charts.session s /\
   Charts.session (fst (Charts.show_multi_viz tk stamp s)) = Charts.session s).
Proof.
  split; [|split; [|apply charts_keep_session]].
  - intros Hnone. unfold Charts.show_multi_viz. by rewrite Hnone.
  - intros Hres Hclear.
    unfold Charts.show_multi_viz, Charts.show_single_viz,
      Charts.generate_visualizations.
    rewrite bool_decide_eq_false_2 by done. rewrite Hclear.
    destruct (Charts.draw_raises tk) as [e|] eqn:Hdraw; simpl;
      rewrite !bool_decide_eq_false_2 by done; simpl;
      rewrite ?bool_decide_eq_false_2 by done; done.
Qed.

Lemma multi_view_returns_from_single_view_witness :
  Charts.current_single_viz
    (fst (Charts.show_multi_viz quiet_toolkit "20240101_000000"
       (fst (Charts.show_single_viz quiet_toolkit "turnout"
          {| Charts.session :=
               state (App.run sample_env TurnoutByRegion
                        (app_with scenario_table));
             Charts.current_single_viz := None |})))) = None.
Proof.
  destruct (multi_view_returns_from_single_view quiet_toolkit "20240101_000000"
    "turnout"
    {| Charts.session :=
         state (App.run sample_env TurnoutByRegion (app_with scenario_table));
       Charts.current_single_viz := None |}) as (_ & H & _).
  destruct H as (_ & _ & H & _); [by vm_compute|done|exact H].
Defined.

(** X20. [show_single_viz] asked for a chart whose result is not stored,
    or for a chart it does not know, draws no chart and still marks the
    view as showing and sets the status [Showing maximized ...], as long
    as some result is stored and the toolkit raises nothing. *)
Theorem single_view_without_its_result tk viz_type s :
  App.analysis_results (Charts.session s) <> ∅ ->
  Charts.clear_raises tk = None -> Charts.draw_raises tk = None ->
  (viz_type = "turnout" ->
     App.analysis_results (Charts.session s) !! "turnout_by_region" = None) ->
  (viz_type = "party" ->
     App.analysis_results (Charts.session s) !! "party_performance" = None) ->
  (viz_type = "candidates" ->
     App.analysis_results (Charts.session s) !! "candidate_performance" = None) ->
  Charts.show_single_viz tk viz_type s =
  ({| Charts.session := Charts.session s;
      Charts.current_single_viz := Some viz_type |},
   [Charts.ClearVisualization; Charts.Canvas;
    Charts.Widget
      (SetStatus ("Showing maximized " +:+ viz_type +:+ " visualization"))]).
Proof.
  intros Hres Hclear Hdraw Ht Hp Hc. unfold Charts.show_single_viz.
  rewrite bool_decide_eq_false_2 by done. rewrite Hclear, Hdraw.
  assert (Charts.single_chart (App.analysis_results (Charts.session s)) viz_type
          = []) as ->; [|done].
  unfold Charts.single_chart, Charts.chart.
  destruct (String.eqb_spec viz_type "turnout") as [H|_];
    [rewrite (Ht H); simpl|simpl].
  - destruct (String.eqb_spec viz_type "party") as [H'|_];
      [rewrite (Hp H'); simpl|simpl].
    + by destruct (String.eqb_spec viz_type "candidates") as [H''|_];
        [rewrite (Hc H'')|].
    + destruct (String.eqb_spec viz_type "candidates") as [H''|_];
        [by rewrite (Hc H'')|done].
  - destruct (String.eqb_spec viz_type "party") as [H'|_];
      [rewrite (Hp H'); simpl|simpl].
    + by destruct (String.eqb_spec viz_type "candidates") as [H''|_];
        [rewrite (Hc H'')|].
    + destruct (String.eqb_spec viz_type "candidates") as [H''|_];
        [by rewrite (Hc H'')|done].
Qed.

Lemma single_view_without_its_result_witness :
  Charts.show_single_viz quiet_toolkit "party"
    {| Charts.session :=
         state (App.run sample_env TurnoutByRegion (app_with scenario_table));
       Charts.current_single_viz := None |}
  = ({| Charts.session :=
          state (App.run sample_env TurnoutByRegion (app_with scenario_table));
        Charts.current_single_viz := Some "party" |},
     [Charts.ClearVisualization; Charts.Canvas;
      Charts.Widget (SetStatus "Showing maximized party visualization")]).
Proof.
  apply (single_view_without_its_result quiet_toolkit "party"
    {| Charts.session :=
         state (App.run sample_env TurnoutByRegion (app_with scenario_table));
       Charts.current_single_viz := None |}); try done; by vm_compute.
Defined.

(** ** Totals, group by group *)

(** X21. On an election table the series an analysis returns has exactly
    one entry for each label that some row carries under the kind's key
    columns, and the total of a label is the 64-bit sum of the votes of
    the rows that carry it: turnout per region, votes per party, votes per
    candidate and party. *)
Theorem analysis_totals_are_group_sums k s df :
  Analyzer.data s = Some df -> valid_table df = true ->
  exists ranked,
    result (Analyzer.run k s) = Returns ranked /\
    NoDup (map fst ranked) /\
    forall label t, (label, t) ∈ ranked <->
      (exists row, row ∈ rows df /\ label = row_label df (kind_by k) row) /\
      t = sum64 (map snd (filter (fun e => fst e = label)
                            (records df (kind_by k)))).
Proof.
  intros Hdata Hvalid. exists (ranked_series df k).
  rewrite (analyzer_run_valid k s df Hdata Hvalid). simpl. split; [done|].
  unfold ranked_series.
  pose proof (sort_values_Permutation (aggregate (records df (kind_by k))))
    as Hperm.
  split; [rewrite Hperm; apply NoDup_aggregate|].
  intros label t. rewrite Hperm, elem_of_aggregate, map_fst_records.
  rewrite list_elem_of_fmap. unfold group_total, group_values. split.
  - intros [(row & -> & Hrow) ->]. split; [by exists row|done].
  - intros [(row & Hrow & ->) ->]. split; [by exists row|done].
Qed.

Lemma analysis_totals_are_group_sums_witness :
  exists ranked,
    result (Analyzer.run TurnoutByRegion (analyzer_with scenario_table))
      = Returns ranked /\
    (["RegionA"], 150) ∈ ranked.
Proof.
  destruct (analysis_totals_are_group_sums TurnoutByRegion
              (analyzer_with scenario_table) scenario_table eq_refl eq_refl)
    as (ranked & Hrun & _ & Hin).
  exists ranked. split; [exact Hrun|].
  apply Hin. split; [|by vm_compute].
  exists [CStr "RegionA"; CStr "Alice"; CStr "PartyX"; CInt 100].
  split; [by left|by vm_compute].
Defined.

(** X22. On an election table whose votes add up to a number that fits in
    64 bits no total wraps: every total of the series an analysis returns
    lies between zero and the total of the votes column. *)
Theorem totals_lie_within_the_votes_total k s df :
  Analyzer.data s = Some df -> valid_table df = true ->
  zsum (votes df) <= int64_max ->
  exists ranked,
    result (Analyzer.run k s) = Returns ranked /\
    Forall (fun e => 0 <= snd e <= zsum (votes df)) ranked.
Proof.
  intros Hdata Hvalid Hfit. exists (ranked_series df k).
  rewrite (analyzer_run_valid k s df Hdata Hvalid). simpl. split; [done|].
  unfold ranked_series. rewrite Forall_forall. intros [label t] Hin.
  rewrite sort_values_Permutation in Hin.
  apply elem_of_aggregate in Hin as [_ ->]. simpl.
  assert (Forall (fun e : Label * Z => 0 <= snd e) (records df (kind_by k)))
    as Hpos.
  { pose proof (votes_nonneg df Hvalid) as Hv.
    rewrite <- (map_snd_records df (kind_by k)) in Hv.
    by rewrite Forall_fmap in Hv. }
  pose proof (zsum_group_values_bounds label _ Hpos) as Hb.
  rewrite map_snd_records in Hb.
  unfold group_total. rewrite sum64_zsum, wrap64_id; [done|].
  unfold int64_min, int64_max in *. lia.
Qed.

Lemma totals_lie_within_the_votes_total_witness :
  exists ranked,
    result (Analyzer.run PartyPerformance (analyzer_with scenario_table))
      = Returns ranked /\
    Forall (fun e => 0 <= snd e <= 180) ranked.
Proof.
  destruct (totals_lie_within_the_votes_total PartyPerformance
              (analyzer_with scenario_table) scenario_table eq_refl eq_refl)
    as (ranked & Hrun & Hall); [by vm_compute|].
  exists ranked. split; [exact Hrun|exact Hall].
Defined.

(** ** A table without rows *)


